(** * discord-newsletter-maker: the context loader, the context renderer and
      the completion wrapper of [newsletter.py], embedded and verified.

    The program reads a JSON document, flattens its context records into a
    text prompt ([render_contexts]), sends the prompt to a completion
    provider ([run_completion]) and writes the answer ([main]).

    Python objects are modelled by the type [value] (what [json.loads]
    returns), Python strings by lists of Unicode code points, raised
    exceptions by the [Raise] outcome of [result], and the two process-wide
    side effects of [main] by a state that is threaded through it. *)

From Stdlib Require Import List String Ascii ZArith NArith Bool Lia DecimalString.
Import ListNotations.

Set Implicit Arguments.
Set Warnings "-register-all".


(* ===================================================================== *)
(** ** Python strings *)
(* ===================================================================== *)

(** A [str] is a sequence of Unicode code points. *)
Definition pystr := list N.

(** An ASCII literal of the source, as a [str]. *)
Definition lit (s : string) : pystr := map N_of_ascii (list_ascii_of_string s).

Arguments lit : simpl never.

Definition LF : N := 0x0a.
Definition CR : N := 0x0d.
Definition DQUOTE : N := 0x22.
Definition SQUOTE : N := 0x27.
Definition BACKSLASH : N := 0x5c.

Fixpoint str_eqb (a b : pystr) : bool :=
  match a, b with
  | [], [] => true
  | x :: a', y :: b' => N.eqb x y && str_eqb a' b'
  | _, _ => false
  end.

(** The line boundaries of [str.splitlines]. *)
Definition is_linebreak (c : N) : bool :=
  existsb (N.eqb c)
    [0x0a; 0x0b; 0x0c; 0x0d; 0x1c; 0x1d; 0x1e; 0x85; 0x2028; 0x2029]%N.

(** The characters [str.strip] removes when called without argument. *)
Definition is_space (c : N) : bool :=
  ((0x09 <=? c) && (c <=? 0x0d)
   || (0x1c <=? c) && (c <=? 0x20)
   || (c =? 0x85) || (c =? 0xa0) || (c =? 0x1680)
   || (0x2000 <=? c) && (c <=? 0x200a)
   || (c =? 0x2028) || (c =? 0x2029) || (c =? 0x202f)
   || (c =? 0x205f) || (c =? 0x3000))%N.

(** [s.splitlines()]: the lines of [s] without their terminators; a carriage
    return followed by a line feed is one terminator, and a terminator at the
    very end opens no further line. *)
Fixpoint splitlines (s : pystr) : list pystr :=
  match s with
  | [] => []
  | c :: s' =>
      if is_linebreak c then
        [] :: match s' with
              | c' :: s'' =>
                  if (c =? CR)%N && (c' =? LF)%N then splitlines s''
                  else splitlines s'
              | [] => []
              end
      else
        match splitlines s' with
        | [] => [[c]]
        | l :: ls => (c :: l) :: ls
        end
  end.

Fixpoint dropwhile (p : N -> bool) (s : pystr) : pystr :=
  match s with
  | [] => []
  | c :: s' => if p c then dropwhile p s' else s
  end.

Definition lstrip (s : pystr) : pystr := dropwhile is_space s.
Definition rstrip (s : pystr) : pystr := rev (dropwhile is_space (rev s)).

(** [s.strip()]. *)
Definition strip (s : pystr) : pystr := rstrip (lstrip s).

(** [sep.join(parts)]. *)
Fixpoint join (sep : pystr) (parts : list pystr) : pystr :=
  match parts with
  | [] => []
  | [x] => x
  | x :: rest => x ++ sep ++ join sep rest
  end.

(* ===================================================================== *)
(** ** Python values *)
(* ===================================================================== *)

(** A [float] as this program observes it: through its truth value and
    through the text [str()] gives for it. *)
Record pyfloat := { float_nonzero : bool; float_repr : pystr }.

(** The objects [json.loads] builds. A [dict] keeps its items in insertion
    order; its keys are strings and pairwise different ([lookup] returns the
    first item of a key). An [int] that [json.loads] builds has at most 4300
    digits, the interpreter's limit on the conversion between [int] and
    [str] in either direction; [VInt] stands for such integers. *)
Inductive value :=
| VNone
| VBool (b : bool)
| VInt (z : Z)
| VFloat (f : pyfloat)
| VStr (s : pystr)
| VList (items : list value)
| VDict (items : list (pystr * value)).

Definition dict := list (pystr * value).

Fixpoint lookup (d : dict) (k : pystr) : option value :=
  match d with
  | [] => None
  | (k', v) :: d' => if str_eqb k' k then Some v else lookup d' k
  end.

(** [d.get(k)]. *)
Definition dict_get (d : dict) (k : pystr) : value :=
  match lookup d k with
  | Some v => v
  | None => VNone
  end.

(** [d[k] = v]: replaces the value in place, or adds the item at the end. *)
Fixpoint dict_set (d : dict) (k : pystr) (v : value) : dict :=
  match d with
  | [] => [(k, v)]
  | (k', v') :: d' =>
      if str_eqb k' k then (k', v) :: d' else (k', v') :: dict_set d' k v
  end.

(** [d.pop(k, None)], for the dictionary that is left. *)
Fixpoint dict_del (d : dict) (k : pystr) : dict :=
  match d with
  | [] => []
  | (k', v') :: d' =>
      if str_eqb k' k then dict_del d' k else (k', v') :: dict_del d' k
  end.

(** Truth value testing. *)
Definition truthy (v : value) : bool :=
  match v with
  | VNone => false
  | VBool b => b
  | VInt z => negb (z =? 0)%Z
  | VFloat f => float_nonzero f
  | VStr s => match s with [] => false | _ => true end
  | VList l => match l with [] => false | _ => true end
  | VDict d => match d with [] => false | _ => true end
  end.

(** [a or b]. *)
Definition py_or (a b : value) : value := if truthy a then a else b.

(* --------------------------------------------------------------------- *)
(** *** [str()] and [repr()] *)

Definition hex_digit (d : N) : N := (if d <? 10 then 0x30 + d else 0x57 + d)%N.

Fixpoint hex_fixed (width : nat) (n : N) : pystr :=
  match width with
  | O => []
  | S w => hex_fixed w (n / 16) ++ [hex_digit (n mod 16)]
  end.

(** The format controls (general category Cf) above U+0100, as of
    Unicode 15. *)
Definition is_format_control (c : N) : bool :=
  ((0x0600 <=? c) && (c <=? 0x0605) || (c =? 0x061c) || (c =? 0x06dd)
   || (c =? 0x070f) || (0x0890 <=? c) && (c <=? 0x0891) || (c =? 0x08e2)
   || (c =? 0x180e) || (0x200b <=? c) && (c <=? 0x200f)
   || (0x202a <=? c) && (c <=? 0x202e) || (0x2060 <=? c) && (c <=? 0x2064)
   || (0x2066 <=? c) && (c <=? 0x206f) || (c =? 0xfeff)
   || (0xfff9 <=? c) && (c <=? 0xfffb) || (c =? 0x110bd) || (c =? 0x110cd)
   || (0x13430 <=? c) && (c <=? 0x1343f)
   || (0x1bca0 <=? c) && (c <=? 0x1bca3)
   || (0x1d173 <=? c) && (c <=? 0x1d17a) || (c =? 0xe0001)
   || (0xe0020 <=? c) && (c <=? 0xe007f))%N.

(** [str.isprintable] of one character that is assigned in the Unicode
    version of the interpreter. Below U+0100 the table is complete. Above,
    the characters that are not printable are the separators, the format
    controls, the surrogates, the private use areas and the noncharacters,
    which are listed; which other code points are unassigned, and for that
    reason not printable, changes from one Unicode version to the next, and
    they are outside this table. Only [repr] of a string consults it, that
    is, only the text of a list or dict put where a label is expected. *)
Definition isprintable (c : N) : bool :=
  (if c <? 0x20 then false
   else if c <? 0x7f then true
   else if c <? 0xa1 then false
   else if c =? 0xad then false
   else if c <? 0x100 then true
   else negb ((c =? 0x1680) || (0x2000 <=? c) && (c <=? 0x200a)
              || (c =? 0x2028) || (c =? 0x2029) || (c =? 0x202f)
              || (c =? 0x205f) || (c =? 0x3000)
              || is_format_control c
              || (0xd800 <=? c) && (c <=? 0xf8ff)
              || (0xfdd0 <=? c) && (c <=? 0xfdef)
              || (0xfffe <=? c mod 0x10000)
              || (0xf0000 <=? c)))%N.

Definition repr_char (quote c : N) : pystr :=
  (if (c =? quote) || (c =? BACKSLASH) then [BACKSLASH; c]
   else if c =? 0x09 then lit "\t"
   else if c =? 0x0a then lit "\n"
   else if c =? 0x0d then lit "\r"
   else if (c <? 0x20) || (c =? 0x7f) then lit "\x" ++ hex_fixed 2 c
   else if c <? 0x7f then [c]
   else if isprintable c then [c]
   else if c <? 0x100 then lit "\x" ++ hex_fixed 2 c
   else if c <? 0x10000 then lit "\u" ++ hex_fixed 4 c
   else lit "\U" ++ hex_fixed 8 c)%N.

(** [repr(s)] of a string: single quotes, unless the string holds a single
    quote and no double quote. *)
Definition repr_str (s : pystr) : pystr :=
  let quote :=
    if existsb (N.eqb SQUOTE) s && negb (existsb (N.eqb DQUOTE) s)
    then DQUOTE else SQUOTE in
  [quote] ++ flat_map (repr_char quote) s ++ [quote].

Definition repr_int (z : Z) : pystr := lit (NilZero.string_of_int (Z.to_int z)).

Fixpoint repr (v : value) : pystr :=
  match v with
  | VNone => lit "None"
  | VBool true => lit "True"
  | VBool false => lit "False"
  | VInt z => repr_int z
  | VFloat f => float_repr f
  | VStr s => repr_str s
  | VList l => lit "[" ++ join (lit ", ") (map repr l) ++ lit "]"
  | VDict d =>
      lit "{"
      ++ join (lit ", ")
           (map (fun kv => repr_str (fst kv) ++ lit ": " ++ repr (snd kv)) d)
      ++ lit "}"
  end.

(** [str(v)], which is what a replacement field [{v}] of an f-string puts in
    the text. *)
Definition py_str (v : value) : pystr :=
  match v with
  | VStr s => s
  | _ => repr v
  end.

(* ===================================================================== *)
(** ** Exceptions *)
(* ===================================================================== *)

(** The provider failures [main] catches: [APIError] and the three
    subclasses of it the [except] clause names. *)
Inductive api_error :=
| APIError
| APIConnectionError
| APITimeoutError
| AuthenticationError.

(** The exceptions of the program: those its own code raises, the
    provider's, and the two the operating system and the encoding of
    standard output can answer a write or a print with. *)
Inductive exn :=
| AttributeError
| TypeError
| IndexError
| SystemExit (msg : pystr)
| ProviderError (kind : api_error) (msg : pystr)
| OSError (msg : pystr)
| UnicodeEncodeError (msg : pystr).

Inductive result (A : Type) :=
| Ok (a : A)
| Raise (e : exn).

Arguments Ok {A} a.
Arguments Raise {A} e.

Definition bind {A B} (r : result A) (k : A -> result B) : result B :=
  match r with
  | Ok a => k a
  | Raise e => Raise e
  end.

Declare Scope py_scope.
Delimit Scope py_scope with py.
Notation "x <- r ;; k" := (bind r (fun x => k))
  (at level 61, r at next level, right associativity) : py_scope.
Local Open Scope py_scope.

(** A [for] loop whose body may raise, over the state [A]. *)
Fixpoint foldM {A B} (body : A -> B -> result A) (a : A) (l : list B)
  : result A :=
  match l with
  | [] => Ok a
  | b :: l' => a' <- body a b ;; foldM body a' l'
  end.

(** [v.get(k)]: only a [dict] has the method. *)
Definition py_get (v : value) (k : pystr) : result value :=
  match v with
  | VDict d => Ok (dict_get d k)
  | _ => Raise AttributeError
  end.

(** The items a [for] loop over [v] visits: the elements of a list, the keys
    of a dict, the characters of a string; nothing else here is iterable. *)
Definition py_iter (v : value) : result (list value) :=
  match v with
  | VList l => Ok l
  | VDict d => Ok (map (fun kv => VStr (fst kv)) d)
  | VStr s => Ok (map (fun c => VStr [c]) s)
  | _ => Raise TypeError
  end.

(** [v.splitlines()]: only a [str] has the method. *)
Definition py_splitlines (v : value) : result (list pystr) :=
  match v with
  | VStr s => Ok (splitlines s)
  | _ => Raise AttributeError
  end.

(* ===================================================================== *)
(** ** The context renderer *)
(* ===================================================================== *)

Definition INDENT : pystr := lit "    ".

(** The body of the loop over the messages of a context, on the list of
    lines built so far. *)
Definition render_message (lines : list pystr) (message : value)
  : result (list pystr) :=
  a <- py_get message (lit "author") ;;
  let author := py_or a (VStr (lit "Unknown")) in
  c <- py_get message (lit "content") ;;
  let content := py_or c (VStr []) in
  ls <- py_splitlines content ;;
  let message_lines := match ls with [] => [[]] | _ => ls end in
  let lines := lines ++ [py_str author ++ lit ": " ++ hd [] message_lines] in
  Ok (fold_left (fun lines line => lines ++ [INDENT ++ line])
        (tl message_lines) lines).

(** The body of the loop over the links of a context. *)
Definition render_link (lines : list pystr) (link : value)
  : result (list pystr) :=
  u <- py_get link (lit "url") ;;
  let url := py_or u (VStr []) in
  p <- py_get link (lit "posted_by") ;;
  let posted_by := py_or p (VStr (lit "Unknown")) in
  let lines :=
    if truthy url
    then lines ++ [INDENT ++ lit "[link] " ++ py_str url
                     ++ lit " (posted by " ++ py_str posted_by ++ lit ")"]
    else lines in
  d <- py_get link (lit "description") ;;
  let description := py_or d (VStr []) in
  Ok (if truthy description
      then lines ++ [INDENT ++ lit "[description] " ++ py_str description]
      else lines).

(** The body of the loop over the contexts. *)
Definition render_context (lines : list pystr) (context : value)
  : result (list pystr) :=
  s <- py_get context (lit "source") ;;
  let source := py_or s (VStr (lit "unknown file")) in
  t <- py_get context (lit "timestamp") ;;
  let timestamp := py_or t (VStr (lit "unknown time")) in
  let lines :=
    lines ++ [lit "=== " ++ py_str source ++ lit " @ " ++ py_str timestamp
                ++ lit " ==="] in
  m <- py_get context (lit "messages") ;;
  messages <- py_iter (py_or m (VList [])) ;;
  lines <- foldM render_message lines messages ;;
  l <- py_get context (lit "links") ;;
  links <- py_iter (py_or l (VList [])) ;;
  lines <- foldM render_link lines links ;;
  Ok (lines ++ [[]]).

(** [render_contexts(contexts)]. *)
Definition render_contexts (contexts : list value) : result pystr :=
  lines <- foldM render_context [] contexts ;;
  Ok (strip (join [LF] lines)).

(* ===================================================================== *)
(** ** The context loader *)
(* ===================================================================== *)

(** [load_contexts], from the object [data] that [json.loads] returned for
    the text of the input file (reading and parsing are the library's). *)
Definition load_contexts (data : value) : result (list value) :=
  let contexts :=
    match data with
    | VDict d => dict_get d (lit "contexts")
    | _ => VNone
    end in
  let contexts :=
    match contexts, data with
    | VNone, VList _ => data
    | _, _ => contexts
    end in
  match contexts with
  | VList l => Ok l
  | _ => Raise (SystemExit (lit "Input JSON must include a 'contexts' array."))
  end.

(** The document of the specification's example. *)
Definition ex_doc : value :=
  VDict [(lit "contexts", VList [VDict [
    (lit "source", VStr (lit "chat.log"));
    (lit "timestamp", VStr (lit "t1"));
    (lit "messages", VList []);
    (lit "links", VList [VDict [
       (lit "url", VStr (lit "https://x"));
       (lit "description", VStr (lit "cool"));
       (lit "posted_by", VStr (lit "alice"))]])]])].

(* ===================================================================== *)
(** ** The completion wrapper *)
(* ===================================================================== *)

(** [SYSTEM_PROMPT]: the triple-quoted text of the source, stripped. *)
Definition SYSTEM_PROMPT : pystr :=
  strip (join [LF] [
    [];
    lit "You are a newsletter editor for the newsletter of a maker community called 'The";
    lit "Makery'. Read chat excerpts that contain shared links and their descriptions.";
    [];
    lit "- Decide which links are worth including (educational, insightful, noteworthy).";
    lit "- Drop broken or spammy links.";
    lit "- Group related links together and keep things concise. Feel free to put the";
    lit "  links in whatever order makes the most sense.";
    lit "- Return an HTML list (ul.link-list > li) with a short title and bullets. Do mention a few words";
    lit "  about each link, anything you can gather from its description and the messages in the";
    lit "  context. Don't say things you aren't sure about, but do try to make it a bit less dry";
    lit "  than just a link description.";
    lit "- Include credit for who shared the link using the provided username (e.g., "
      ++ [DQUOTE] ++ lit "Posted by username" ++ [DQUOTE] ++ lit ").";
    lit "- Do not include a header, footer, or anything else apart from the list of links.";
    lit "- Give the links the following structure:";
    lit "  <li>";
    lit "    <strong>Title with proper case</strong>";
    lit "    <p>Description sentences/paragraphs.</p>";
    lit "    <a href=" ++ [DQUOTE] ++ lit "https://link/to/the/page" ++ [DQUOTE]
      ++ lit ">https://link/to/the/page</a> <span class=" ++ [DQUOTE]
      ++ lit "poster" ++ [DQUOTE] ++ lit ">by Stavros.</span>";
    lit "  </li>";
    [];
    []]).

Record chat_message := { role : pystr; content : pystr }.

(** The arguments of [client.chat.completions.create]. *)
Record request := {
  req_model : pystr;
  req_temperature : pyfloat;
  req_messages : list chat_message }.

(** A response choice, by its [message.content], which may be [None]. *)
Record choice := { message_content : option pystr }.

Record response := { choices : list choice }.

(** The provider behind a client: what a request is answered with, a
    response or a raised exception. *)
Definition client := request -> result response.

(** The request [run_completion] sends: the fixed system instruction, and
    the rendered text after a fixed sentence as the user message. *)
Definition completion_request (model context : pystr) (temperature : pyfloat)
  : request :=
  {| req_model := model;
     req_temperature := temperature;
     req_messages :=
       [ {| role := lit "system"; content := SYSTEM_PROMPT |};
         {| role := lit "user";
            content :=
              lit "Create the newsletter from these Discord snippets:"
                ++ [LF; LF] ++ context |} ] |}.

(** [run_completion(client, model, context, temperature)]. *)
Definition run_completion (cl : client) (model context : pystr)
    (temperature : pyfloat) : result pystr :=
  response <- cl (completion_request model context temperature) ;;
  match choices response with
  | [] => Raise IndexError
  | choice :: _ =>
      Ok (match message_content choice with
          | Some (c :: s) => c :: s
          | _ => []
          end)
  end.

(* ===================================================================== *)
(** ** The program *)
(* ===================================================================== *)

(** What the run leaves behind: the calls of [write_text] that returned, as
    (path, text), and the calls of [print] that returned, by their text,
    both in the order of the calls. *)
Record effects := { written : list (pystr * pystr); printed : list pystr }.

(** A computation that may raise and has effects; effects made before an
    exception stay. *)
Definition io (A : Type) := effects -> result A * effects.

Definition io_ret {A} (a : A) : io A := fun st => (Ok a, st).

Definition io_bind {A B} (c : io A) (k : A -> io B) : io B :=
  fun st =>
    match c st with
    | (Ok a, st') => k a st'
    | (Raise e, st') => (Raise e, st')
    end.

Definition io_lift {A} (r : result A) : io A := fun st => (r, st).

Definition io_raise {A} (e : exn) : io A := fun st => (Raise e, st).

Declare Scope io_scope.
Delimit Scope io_scope with io.
Notation "x <- c ;; k" := (io_bind c (fun x => k))
  (at level 61, c at next level, right associativity) : io_scope.
Notation "c ;; k" := (io_bind c (fun _ => k))
  (at level 61, right associativity) : io_scope.

(** What the run finds around it: the environment variable
    [OPENAI_API_KEY]; the object [json.loads] returns for the text of a file
    that is read and parsed; the provider a client with a given key talks
    to; and how the surroundings answer a write and a print: with nothing,
    or with the exception they raise ([OSError] for a file that cannot be
    written or a closed pipe, [UnicodeEncodeError] for a text the encoding
    of standard output has no bytes for). *)
Record world := {
  env_api_key : option pystr;
  read_json : pystr -> value;
  provider : pystr -> client;
  write_error : pystr -> pystr -> option exn;
  print_error : pystr -> option exn }.

(** [Path(path).write_text(text)]. *)
Definition write_text (w : world) (path text : pystr) : io unit :=
  fun st =>
    match write_error w path text with
    | Some e => (Raise e, st)
    | None =>
        (Ok tt, {| written := written st ++ [(path, text)];
                   printed := printed st |})
    end.

(** [print(text)]. *)
Definition print (w : world) (text : pystr) : io unit :=
  fun st =>
    match print_error w text with
    | Some e => (Raise e, st)
    | None =>
        (Ok tt, {| written := written st; printed := printed st ++ [text] |})
    end.

(** One character of a JSON string as [json.dumps] writes it by default
    (ASCII only). *)
Definition json_escape_char (c : N) : pystr :=
  (if c =? DQUOTE then [BACKSLASH; DQUOTE]
   else if c =? BACKSLASH then [BACKSLASH; BACKSLASH]
   else if c =? 0x08 then lit "\b"
   else if c =? 0x0c then lit "\f"
   else if c =? 0x0a then lit "\n"
   else if c =? 0x0d then lit "\r"
   else if c =? 0x09 then lit "\t"
   else if (0x20 <=? c) && (c <=? 0x7e) then [c]
   else if c <? 0x10000 then lit "\u" ++ hex_fixed 4 c
   else
     let n := c - 0x10000 in
     lit "\u" ++ hex_fixed 4 (N.lor 0xd800 (N.land (N.shiftr n 10) 0x3ff))
       ++ lit "\u" ++ hex_fixed 4 (N.lor 0xdc00 (N.land n 0x3ff)))%N.

(** [json.dumps({"LINK_CONTENT": newsletter})]. *)
Definition dumps_link_content (newsletter : pystr) : pystr :=
  lit "{" ++ [DQUOTE] ++ lit "LINK_CONTENT" ++ [DQUOTE] ++ lit ": "
    ++ [DQUOTE] ++ flat_map json_escape_char newsletter ++ [DQUOTE] ++ lit "}".

(** The parsed command line. *)
Record args := {
  input : pystr;
  model : pystr;
  temperature : pyfloat;
  api_key : option pystr }.

Definition default_model : pystr := lit "gpt-5.1".
Definition default_temperature : pyfloat :=
  {| float_nonzero := true; float_repr := lit "0.4" |}.

(** [a or b] on optional strings: [None] and the empty string are false. *)
Definition or_else (a b : option pystr) : option pystr :=
  match a with
  | Some (_ :: _) => a
  | _ => b
  end.

(** The [try] statement of [main]: the stripped completion, with the
    provider's failures turned into [SystemExit]. *)
Definition completion_or_exit (cl : client) (a : args) (context : pystr)
  : result pystr :=
  match (text <- run_completion cl (model a) context (temperature a) ;;
         Ok (strip text)) with
  | Raise (ProviderError _ msg) =>
      Raise (SystemExit (lit "OpenAI API error: " ++ msg))
  | r => r
  end.

(** [main], after the command line is parsed into [a]. *)
Definition main (a : args) (w : world) : io unit :=
  match or_else (api_key a) (env_api_key w) with
  | Some (k :: key) =>
      (contexts <- io_lift (load_contexts (read_json w (input a))) ;;
       match contexts with
       | [] =>
           io_raise (SystemExit (lit "No link contexts found in input JSON."))
       | _ :: _ =>
           context <- io_lift (render_contexts contexts) ;;
           newsletter <-
             io_lift (completion_or_exit (provider w (k :: key)) a context) ;;
           match newsletter with
           | [] =>
               io_raise
                 (SystemExit (lit "Model returned an empty newsletter."))
           | _ :: _ =>
               write_text w (lit "newsletter_context.json")
                 (dumps_link_content newsletter) ;;
               print w newsletter
           end
       end)%io
  | _ =>
      io_raise (SystemExit
        (lit "Missing OpenAI API key. Set OPENAI_API_KEY or pass --api-key."))
  end.

(** The exit status of the process: [SystemExit] with a message, like an
    exception nobody catches, ends it with status 1. *)
Definition exit_status {A} (r : result A) : Z :=
  match r with
  | Ok _ => 0
  | Raise _ => 1
  end.

Definition no_effects : effects := {| written := []; printed := [] |}.

(* ===================================================================== *)
(** ** The rendering rule of the specification *)
(* ===================================================================== *)

(** The field [k] of a record as the renderer reads it: [d.get(k) or
    default]. *)
Definition field (d : dict) (k : pystr) (default : value) : value :=
  py_or (dict_get d k) default.

Definition as_dict (v : value) : dict :=
  match v with
  | VDict d => d
  | _ => []
  end.

(** The sequence held by the field [k] (messages, links); absent counts as
    empty. *)
Definition sequence (d : dict) (k : pystr) : list value :=
  match field d k (VList []) with
  | VList l => l
  | _ => []
  end.

(** Rule 1: the header line of a context. *)
Definition header_line (context : value) : pystr :=
  let d := as_dict context in
  lit "=== " ++ py_str (field d (lit "source") (VStr (lit "unknown file")))
    ++ lit " @ "
    ++ py_str (field d (lit "timestamp") (VStr (lit "unknown time")))
    ++ lit " ===".

(** Rule 2: the lines of one message: the author with the first line of the
    content, then the other lines of the content, indented. *)
Definition message_lines (message : value) : list pystr :=
  let d := as_dict message in
  let ls :=
    match field d (lit "content") (VStr []) with
    | VStr s => splitlines s
    | _ => []
    end in
  (py_str (field d (lit "author") (VStr (lit "Unknown"))) ++ lit ": "
     ++ hd [] ls)
  :: map (app INDENT) (tl ls).

(** Rule 3: the lines of one link. *)
Definition link_lines (link : value) : list pystr :=
  let d := as_dict link in
  let url := field d (lit "url") (VStr []) in
  let description := field d (lit "description") (VStr []) in
  (if truthy url
   then [INDENT ++ lit "[link] " ++ py_str url ++ lit " (posted by "
           ++ py_str (field d (lit "posted_by") (VStr (lit "Unknown")))
           ++ lit ")"]
   else [])
  ++ (if truthy description
      then [INDENT ++ lit "[description] " ++ py_str description]
      else []).

(** The block of a context: its header, the lines of its messages in order,
    the lines of its links in order. *)
Definition block_lines (context : value) : list pystr :=
  let d := as_dict context in
  header_line context
  :: flat_map message_lines (sequence d (lit "messages"))
  ++ flat_map link_lines (sequence d (lit "links")).

(** The rendered text: the blocks, one blank line between two of them, the
    whole trimmed. *)
Definition rendered_text (contexts : list value) : pystr :=
  strip (join [LF; LF] (map (fun c => join [LF] (block_lines c)) contexts)).

(* --------------------------------------------------------------------- *)
(** *** The records the renderer accepts *)

Definition is_dict (v : value) : bool :=
  match v with
  | VDict _ => true
  | _ => false
  end.

(** A message: an object whose content, when it is there and not false, is a
    string. *)
Definition wf_message (message : value) : bool :=
  match message with
  | VDict d =>
      match field d (lit "content") (VStr []) with
      | VStr _ => true
      | _ => false
      end
  | _ => false
  end.

(** A field that holds a sequence of records: absent, false, or a list whose
    elements all pass [elem_ok]. *)
Definition wf_sequence (elem_ok : value -> bool) (d : dict) (k : pystr)
  : bool :=
  match field d k (VList []) with
  | VList l => forallb elem_ok l
  | _ => false
  end.

Definition wf_context (context : value) : bool :=
  match context with
  | VDict d =>
      wf_sequence wf_message d (lit "messages")
      && wf_sequence is_dict d (lit "links")
  | _ => false
  end.

(** Whether [c] ends in a line boundary that a line feed put after it would
    not merge with (a carriage return and the line feed make one boundary). *)
Definition ends_with_break (c : pystr) : bool :=
  match rev c with
  | x :: _ => is_linebreak x && negb (x =? CR)%N
  | [] => false
  end.

(** Replacing the field [k] of a record by [empty], by nothing, or by
    [default] makes no difference to the body [f] of a rendering loop. *)
Definition same_as_default (f : list pystr -> value -> result (list pystr))
    (k : pystr) (empty default : value) : Prop :=
  forall (lines : list pystr) (d : dict),
    f lines (VDict (dict_set d k empty)) = f lines (VDict (dict_del d k))
    /\ f lines (VDict (dict_set d k empty))
       = f lines (VDict (dict_set d k default)).

(* --------------------------------------------------------------------- *)
(** *** The input shapes and the messages of the run *)


(** The two messages of an input error. *)
Definition input_error (msg : pystr) : Prop :=
  msg = lit "Input JSON must include a 'contexts' array."
  \/ msg = lit "No link contexts found in input JSON.".

Definition missing_key_message : pystr :=
  lit "Missing OpenAI API key. Set OPENAI_API_KEY or pass --api-key.".



(* --------------------------------------------------------------------- *)
(** *** Example inputs and runs *)

(** Two contexts, the first with two messages, the second with two links. *)
Definition ex_two_contexts : list value :=
  [VDict [(lit "source", VStr (lit "a.log"));
          (lit "messages",
           VList [VDict [(lit "author", VStr (lit "Sam"));
                         (lit "content", VStr (lit "hi"))];
                  VDict [(lit "author", VStr (lit "Bo"));
                         (lit "content", VStr (lit "yo "))]])];
   VDict [(lit "timestamp", VStr (lit "t2"));
          (lit "links",
           VList [VDict [(lit "url", VStr (lit "https://y"))];
                  VDict [(lit "description", VStr (lit "last "))]])]].

(** Contexts whose fields hold empty strings and [None]. *)
Definition ex_empty_fields : list value :=
  [VDict [(lit "source", VStr []);
          (lit "timestamp", VStr []);
          (lit "messages", VNone);
          (lit "links",
           VList [VDict [(lit "url", VStr (lit "https://x"));
                         (lit "posted_by", VStr [])]])];
   VDict [(lit "messages",
           VList [VDict [(lit "author", VStr []);
                         (lit "content", VStr (lit "hello"))]]);
          (lit "links", VNone)]].

(** A context of two messages, by the content of the first. *)
Definition ex_two_messages (first_content : pystr) : list value :=
  [VDict [(lit "messages",
           VList [VDict [(lit "author", VStr (lit "Sam"));
                         (lit "content", VStr first_content)];
                  VDict [(lit "author", VStr (lit "Bo"));
                         (lit "content", VStr (lit "b"))]])]].

(** A provider that answers every request with two choices. *)
Definition ex_client (text : option pystr) : client :=
  fun _ => Ok {| choices := [ {| message_content := text |};
                              {| message_content := Some (lit "other") |} ] |}.

(** A command line with the defaults, and the runs it starts. *)
Definition ex_args : args :=
  {| input := lit "links.json";
     model := default_model;
     temperature := default_temperature;
     api_key := None |}.

(** A run whose provider fails with a timeout. *)
Definition ex_world_timeout : world :=
  {| env_api_key := Some (lit "sk-1");
     read_json := fun _ => ex_doc;
     provider :=
       fun _ _ => Raise (ProviderError APITimeoutError
                           (lit "Request timed out."));
     write_error := fun _ _ => None;
     print_error := fun _ => None |}.

(** A run whose provider answers with [text]. *)
Definition ex_world_answer (text : pystr) : world :=
  {| env_api_key := Some (lit "sk-1");
     read_json := fun _ => ex_doc;
     provider := fun _ => ex_client (Some text);
     write_error := fun _ _ => None;
     print_error := fun _ => None |}.

(* --------------------------------------------------------------------- *)
(** *** The ways a run ends, and the text of the output file *)

(** The exceptions a run of [main] can end on, once the input file is read
    and parsed: the five [SystemExit] messages of [main] and
    [load_contexts], the two exceptions the renderer lets escape, the
    [IndexError] of a response without choice, and whatever the surroundings
    [w] answer the write of the file or the print with. *)
Inductive main_failure (w : world) : exn -> Prop :=
| ends_missing_key : main_failure w (SystemExit missing_key_message)
| ends_input_error (msg : pystr) :
    input_error msg -> main_failure w (SystemExit msg)
| ends_bad_record (e : exn) :
    e = AttributeError \/ e = TypeError -> main_failure w e
| ends_provider_error (msg : pystr) :
    main_failure w (SystemExit (lit "OpenAI API error: " ++ msg))
| ends_no_choice : main_failure w IndexError
| ends_empty_newsletter :
    main_failure w (SystemExit (lit "Model returned an empty newsletter."))
| ends_write_error (text : pystr) (e : exn) :
    write_error w (lit "newsletter_context.json") text = Some e ->
    main_failure w e
| ends_print_error (text : pystr) (e : exn) :
    print_error w text = Some e -> main_failure w e.

(** The printable ASCII characters, space to tilde. *)
Definition printable_ascii (c : N) : bool := ((0x20 <=? c) && (c <=? 0x7e))%N.

(** A run whose provider answers with a response that has no choice. *)
Definition ex_world_no_choice : world :=
  {| env_api_key := Some (lit "sk-1");
     read_json := fun _ => ex_doc;
     provider := fun _ _ => Ok {| choices := [] |};
     write_error := fun _ _ => None;
     print_error := fun _ => None |}.

(** Standard output encoded as UTF-8: a text that holds a surrogate cannot
    be encoded. *)
Definition utf8_print_error (text : pystr) : option exn :=
  if existsb (fun c => (0xd800 <=? c) && (c <=? 0xdfff))%N text
  then Some (UnicodeEncodeError (lit "surrogates not allowed"))
  else None.

(** A run whose provider answers with [text], printing to a standard output
    encoded as UTF-8. *)
Definition ex_world_utf8 (text : pystr) : world :=
  {| env_api_key := Some (lit "sk-1");
     read_json := fun _ => ex_doc;
     provider := fun _ => ex_client (Some text);
     write_error := fun _ _ => None;
     print_error := utf8_print_error |}.

(** Two runs whose providers differ on the requests for another model than
    the default one, and on nothing else. *)
Definition ex_world_any_model : world := ex_world_answer (lit "<ul></ul>").

Definition ex_world_one_model : world :=
  {| env_api_key := Some (lit "sk-1");
     read_json := fun _ => ex_doc;
     provider :=
       fun key req =>
         if str_eqb (req_model req) default_model
         then ex_client (Some (lit "<ul></ul>")) req
         else Raise (ProviderError APIError (lit "model not found"));
     write_error := fun _ _ => None;
     print_error := fun _ => None |}.

(** A response without choice. *)
Definition ex_client_no_choice : client := fun _ => Ok {| choices := [] |}.

(** A field that is absent renders like the field set to [default], in the
    body [f] of a rendering loop. *)
Definition absent_as_default (f : list pystr -> value -> result (list pystr))
    (k : pystr) (default : value) : Prop :=
  forall (lines : list pystr) (d : dict),
    lookup d k = None ->
    f lines (VDict d) = f lines (VDict (dict_set d k default)).

(* ===================================================================== *)
(** ** Lemmas on strings and lists *)
(* ===================================================================== *)

Lemma str_eqb_refl (a : pystr) : str_eqb a a = true.
Proof.
  induction a as [|x a IH]; simpl; [reflexivity|].
  now rewrite N.eqb_refl, IH.
Qed.

Lemma str_eqb_eq (a b : pystr) : str_eqb a b = true <-> a = b.
Proof.
  split; [|intros ->; apply str_eqb_refl].
  revert b; induction a as [|x a IH]; intros [|y b]; simpl; try easy.
  intros H; apply andb_true_iff in H as [Hx Hab].
  apply N.eqb_eq in Hx; subst; f_equal; auto.
Qed.

Lemma str_eqb_sym (a b : pystr) : str_eqb a b = str_eqb b a.
Proof.
  destruct (str_eqb a b) eqn:E.
  - apply str_eqb_eq in E; subst; symmetry; apply str_eqb_refl.
  - destruct (str_eqb b a) eqn:E'; [|reflexivity].
    apply str_eqb_eq in E'; subst; now rewrite str_eqb_refl in E.
Qed.

Lemma dropwhile_app (p : N -> bool) (a b : pystr) :
  dropwhile p (a ++ b)
  = if forallb p a then dropwhile p b else dropwhile p a ++ b.
Proof.
  induction a as [|x a IH]; simpl; [reflexivity|].
  destruct (p x); simpl; [exact IH | reflexivity].
Qed.

Lemma dropwhile_hd (p : N -> bool) (s : pystr) (c : N) :
  hd_error (dropwhile p s) = Some c -> p c = false.
Proof.
  induction s as [|x s IH]; simpl; [discriminate|].
  destruct (p x) eqn:E; [exact IH|].
  simpl; intros [= <-]; exact E.
Qed.

Lemma dropwhile_suffix (p : N -> bool) (s : pystr) :
  exists pre, s = pre ++ dropwhile p s.
Proof.
  induction s as [|x s [pre IH]]; simpl; [now exists []|].
  destruct (p x).
  - exists (x :: pre); simpl; now f_equal.
  - now exists [].
Qed.

Lemma rstrip_prefix (s : pystr) : exists suf, s = rstrip s ++ suf.
Proof.
  unfold rstrip.
  destruct (dropwhile_suffix is_space (rev s)) as [pre H].
  exists (rev pre).
  rewrite <- rev_app_distr, <- H; symmetry; apply rev_involutive.
Qed.

Lemma rstrip_snoc_space (s : pystr) (c : N) :
  is_space c = true -> rstrip (s ++ [c]) = rstrip s.
Proof.
  intros H; unfold rstrip.
  rewrite rev_app_distr; simpl; now rewrite H.
Qed.

(** A trailing line feed does not survive [strip]. *)
Lemma strip_snoc_LF (s : pystr) : strip (s ++ [LF]) = strip s.
Proof.
  unfold strip, lstrip.
  rewrite dropwhile_app.
  destruct (forallb is_space s) eqn:E.
  - assert (dropwhile is_space s = []) as ->.
    { clear -E; induction s as [|x s IH]; simpl in *; [reflexivity|].
      apply andb_true_iff in E as [-> E]; auto. }
    reflexivity.
  - now apply rstrip_snoc_space.
Qed.

Lemma strip_no_leading_space (s : pystr) (c : N) :
  hd_error (strip s) = Some c -> is_space c = false.
Proof.
  unfold strip; intros H.
  apply (@dropwhile_hd is_space s).
  fold (lstrip s).
  destruct (rstrip_prefix (lstrip s)) as [suf E].
  rewrite E.
  destruct (rstrip (lstrip s)); [discriminate | exact H].
Qed.

Lemma strip_no_trailing_space (s : pystr) (c : N) :
  hd_error (rev (strip s)) = Some c -> is_space c = false.
Proof.
  unfold strip, rstrip; rewrite rev_involutive.
  apply dropwhile_hd.
Qed.

Lemma join_cons (sep x : pystr) (rest : list pystr) :
  rest <> [] -> join sep (x :: rest) = x ++ sep ++ join sep rest.
Proof. destruct rest; [congruence | reflexivity]. Qed.

Lemma join_app (sep : pystr) (a b : list pystr) :
  a <> [] -> b <> [] -> join sep (a ++ b) = join sep a ++ sep ++ join sep b.
Proof.
  intros Ha Hb; induction a as [|x a IH]; [congruence|].
  destruct a as [|y a].
  - simpl app; now rewrite join_cons.
  - change ((x :: y :: a) ++ b) with (x :: (y :: a) ++ b).
    rewrite join_cons by (simpl; congruence).
    rewrite IH by congruence.
    change (join sep (x :: y :: a)) with (x ++ sep ++ join sep (y :: a)).
    now rewrite <- !app_assoc.
Qed.

Lemma join_snoc_empty (sep : pystr) (a : list pystr) :
  a <> [] -> join sep (a ++ [[]]) = join sep a ++ sep.
Proof.
  intros Ha; rewrite join_app by congruence; simpl; now rewrite app_nil_r.
Qed.

Lemma fold_left_snoc {A B} (g : B -> A) (l : list B) (acc : list A) :
  fold_left (fun acc x => acc ++ [g x]) l acc = acc ++ map g l.
Proof.
  revert acc; induction l as [|x l IH]; intros acc; simpl.
  - now rewrite app_nil_r.
  - now rewrite IH, <- app_assoc.
Qed.

(* ===================================================================== *)
(** ** Lemmas on dictionaries *)
(* ===================================================================== *)

Lemma lookup_set_same (d : dict) (k : pystr) (v : value) :
  lookup (dict_set d k v) k = Some v.
Proof.
  induction d as [|[k' v'] d IH]; simpl.
  - now rewrite str_eqb_refl.
  - destruct (str_eqb k' k) eqn:E; simpl; rewrite E; auto.
Qed.

Lemma lookup_set_other (d : dict) (k k2 : pystr) (v : value) :
  str_eqb k k2 = false -> lookup (dict_set d k v) k2 = lookup d k2.
Proof.
  intros Hk; induction d as [|[k' v'] d IH]; simpl.
  - now rewrite Hk.
  - destruct (str_eqb k' k) eqn:E; simpl.
    + apply str_eqb_eq in E; subst k'; now rewrite Hk.
    + now rewrite IH.
Qed.

Lemma lookup_del_same (d : dict) (k : pystr) : lookup (dict_del d k) k = None.
Proof.
  induction d as [|[k' v'] d IH]; simpl; [reflexivity|].
  destruct (str_eqb k' k) eqn:E; simpl; [|rewrite E]; auto.
Qed.

Lemma lookup_del_other (d : dict) (k k2 : pystr) :
  str_eqb k k2 = false -> lookup (dict_del d k) k2 = lookup d k2.
Proof.
  intros Hk; induction d as [|[k' v'] d IH]; simpl; [reflexivity|].
  destruct (str_eqb k' k) eqn:E; simpl.
  - apply str_eqb_eq in E; subst k'; now rewrite Hk.
  - now rewrite IH.
Qed.

Lemma field_set_same (d : dict) (k : pystr) (v default : value) :
  field (dict_set d k v) k default = py_or v default.
Proof. unfold field, dict_get; now rewrite lookup_set_same. Qed.

Lemma field_set_other (d : dict) (k k2 : pystr) (v default : value) :
  str_eqb k k2 = false -> field (dict_set d k v) k2 default = field d k2 default.
Proof. intros H; unfold field, dict_get; now rewrite lookup_set_other. Qed.

Lemma field_del_same (d : dict) (k : pystr) (default : value) :
  field (dict_del d k) k default = default.
Proof. unfold field, dict_get; now rewrite lookup_del_same. Qed.

Lemma field_del_other (d : dict) (k k2 : pystr) (default : value) :
  str_eqb k k2 = false -> field (dict_del d k) k2 default = field d k2 default.
Proof. intros H; unfold field, dict_get; now rewrite lookup_del_other. Qed.

(** What [field] can return when the default is the empty list. *)
Lemma field_list_cases (d : dict) (k : pystr) :
  field d k (VList []) = VList []
  \/ truthy (field d k (VList [])) = true.
Proof.
  unfold field, py_or.
  destruct (truthy (dict_get d k)) eqn:E; [right; exact E | left; reflexivity].
Qed.

(* ===================================================================== *)
(** ** Lemmas on the rendering loops *)
(* ===================================================================== *)

Section Loops.

Variables (A B : Type).
Variable body : list A -> B -> result (list A).
Variable emitted : B -> list A.
Variable accepted : B -> bool.

Hypothesis body_ok :
  forall acc b, accepted b = true -> body acc b = Ok (acc ++ emitted b).
Hypothesis body_fails :
  forall acc b, accepted b = false -> exists e, body acc b = Raise e.

Lemma foldM_ok (l : list B) (acc : list A) :
  forallb accepted l = true ->
  foldM body acc l = Ok (acc ++ flat_map emitted l).
Proof.
  revert acc; induction l as [|b l IH]; intros acc H; simpl in *.
  - now rewrite app_nil_r.
  - apply andb_true_iff in H as [Hb Hl].
    rewrite (body_ok acc Hb); simpl.
    rewrite IH by assumption.
    now rewrite <- app_assoc.
Qed.

Lemma foldM_fails (l : list B) (acc : list A) :
  forallb accepted l = false -> exists e, foldM body acc l = Raise e.
Proof.
  revert acc; induction l as [|b l IH]; intros acc H; simpl in *.
  - discriminate.
  - destruct (accepted b) eqn:Hb; simpl in H.
    + rewrite (body_ok acc Hb); simpl; now apply IH.
    + destruct (body_fails acc Hb) as [e He].
      exists e; now rewrite He.
Qed.

End Loops.

Lemma render_message_dict (lines : list pystr) (d : dict) :
  render_message lines (VDict d)
  = match field d (lit "content") (VStr []) with
    | VStr _ => Ok (lines ++ message_lines (VDict d))
    | _ => Raise AttributeError
    end.
Proof.
  unfold render_message, message_lines; simpl py_get; simpl bind.
  unfold as_dict; fold (field d (lit "content") (VStr [])).
  fold (field d (lit "author") (VStr (lit "Unknown"))).
  destruct (field d (lit "content") (VStr [])); simpl; try reflexivity.
  rewrite fold_left_snoc.
  destruct (splitlines s); simpl; now rewrite <- app_assoc.
Qed.

Lemma render_message_ok (lines : list pystr) (message : value) :
  wf_message message = true ->
  render_message lines message = Ok (lines ++ message_lines message).
Proof.
  destruct message; try discriminate.
  unfold wf_message; rewrite render_message_dict.
  destruct (field items (lit "content") (VStr [])); easy.
Qed.

Lemma render_message_fails (lines : list pystr) (message : value) :
  wf_message message = false ->
  exists e, render_message lines message = Raise e.
Proof.
  destruct message; try (exists AttributeError; reflexivity).
  unfold wf_message; rewrite render_message_dict.
  destruct (field items (lit "content") (VStr []));
    try discriminate; exists AttributeError; reflexivity.
Qed.

Lemma render_link_dict (lines : list pystr) (d : dict) :
  render_link lines (VDict d) = Ok (lines ++ link_lines (VDict d)).
Proof.
  unfold render_link, link_lines; simpl py_get; simpl bind.
  unfold as_dict.
  fold (field d (lit "url") (VStr [])).
  fold (field d (lit "description") (VStr [])).
  fold (field d (lit "posted_by") (VStr (lit "Unknown"))).
  destruct (truthy (field d (lit "url") (VStr [])));
    destruct (truthy (field d (lit "description") (VStr [])));
    simpl; rewrite ?app_nil_r, <- ?app_assoc; reflexivity.
Qed.

Lemma render_link_ok (lines : list pystr) (link : value) :
  is_dict link = true -> render_link lines link = Ok (lines ++ link_lines link).
Proof. destruct link; try discriminate; intros _; apply render_link_dict. Qed.

Lemma render_link_fails (lines : list pystr) (link : value) :
  is_dict link = false -> exists e, render_link lines link = Raise e.
Proof.
  destruct link; try discriminate; intros _; exists AttributeError; reflexivity.
Qed.

(** The loop over a field that holds a sequence: it goes through when the
    field passes [wf_sequence], and raises otherwise. *)
Section SequenceLoop.

Variable body : list pystr -> value -> result (list pystr).
Variable emitted : value -> list pystr.
Variable accepted : value -> bool.

Hypothesis body_ok :
  forall acc b, accepted b = true -> body acc b = Ok (acc ++ emitted b).
Hypothesis body_fails :
  forall acc b, accepted b = false -> exists e, body acc b = Raise e.
Hypothesis strings_refused : forall s, accepted (VStr s) = false.

Lemma loop_ok (C : Type) (rest : list pystr -> result C)
    (d : dict) (k : pystr) (lines : list pystr) :
  wf_sequence accepted d k = true ->
  (items <- py_iter (field d k (VList [])) ;;
   lines' <- foldM body lines items ;;
   rest lines')
  = rest (lines ++ flat_map emitted (sequence d k)).
Proof.
  unfold wf_sequence, sequence.
  destruct (field d k (VList [])); try discriminate.
  intros H; simpl.
  now rewrite (@foldM_ok _ _ body emitted accepted body_ok).
Qed.

Lemma loop_fails (C : Type) (rest : list pystr -> result C)
    (d : dict) (k : pystr) (lines : list pystr) :
  wf_sequence accepted d k = false ->
  exists e,
    (items <- py_iter (field d k (VList [])) ;;
     lines' <- foldM body lines items ;;
     rest lines')
    = Raise e.
Proof.
  unfold wf_sequence.
  destruct (field_list_cases d k) as [E | T].
  - rewrite E; discriminate.
  - destruct (field d k (VList [])) as [| | | |s|l|kv]; simpl in *;
      try (intros _; exists TypeError; reflexivity).
    + intros _; destruct s as [|c s]; [discriminate|]; simpl.
      destruct (body_fails lines (strings_refused [c])) as [e He].
      exists e; now rewrite He.
    + intros H.
      destruct (@foldM_fails _ _ body emitted accepted body_ok body_fails
                  l lines H) as [e He].
      exists e; now rewrite He.
    + intros _; destruct kv as [|[k' v'] kv]; [discriminate|]; simpl.
      destruct (body_fails lines (strings_refused k')) as [e He].
      exists e; now rewrite He.
Qed.

End SequenceLoop.

Lemma render_context_ok (lines : list pystr) (context : value) :
  wf_context context = true ->
  render_context lines context = Ok (lines ++ block_lines context ++ [[]]).
Proof.
  destruct context as [| | | | | |d]; try discriminate.
  unfold wf_context; intros H; apply andb_true_iff in H as [Hm Hl].
  unfold render_context; simpl py_get; simpl bind.
  fold (field d (lit "messages") (VList [])).
  fold (field d (lit "links") (VList [])).
  rewrite (@loop_ok render_message message_lines wf_message
             render_message_ok _ _ d (lit "messages") _ Hm).
  rewrite (@loop_ok render_link link_lines is_dict
             render_link_ok _ _ d (lit "links") _ Hl).
  unfold block_lines, header_line, as_dict, field.
  rewrite <- app_comm_cons, <- !app_assoc; reflexivity.
Qed.

Lemma render_context_fails (lines : list pystr) (context : value) :
  wf_context context = false ->
  exists e, render_context lines context = Raise e.
Proof.
  destruct context as [| | | | | |d];
    try (intros _; exists AttributeError; reflexivity).
  unfold wf_context; intros H.
  unfold render_context; simpl py_get; simpl bind.
  fold (field d (lit "messages") (VList [])).
  fold (field d (lit "links") (VList [])).
  destruct (wf_sequence wf_message d (lit "messages")) eqn:Hm.
  - rewrite (@loop_ok render_message message_lines wf_message
             render_message_ok _ _ d (lit "messages") _ Hm).
    simpl in H.
    apply (@loop_fails render_link link_lines is_dict
             render_link_ok render_link_fails (fun _ => eq_refl)); exact H.
  - apply (@loop_fails render_message message_lines wf_message
             render_message_ok render_message_fails (fun _ => eq_refl));
      exact Hm.
Qed.

Lemma render_loop_ok (contexts : list value) :
  forallb wf_context contexts = true ->
  foldM render_context [] contexts
  = Ok (flat_map (fun c => block_lines c ++ [[]]) contexts).
Proof.
  intros H.
  now rewrite (@foldM_ok _ _ render_context
                 (fun c => block_lines c ++ [[]]) wf_context render_context_ok).
Qed.

Lemma render_loop_fails (contexts : list value) :
  forallb wf_context contexts = false ->
  exists e, foldM render_context [] contexts = Raise e.
Proof.
  apply (@foldM_fails _ _ render_context
           (fun c => block_lines c ++ [[]]) wf_context
           render_context_ok render_context_fails).
Qed.

(** The lines of the blocks, each followed by an empty line, joined by line
    feeds: the texts of the blocks with one blank line between two of them,
    and a last line feed. *)
Lemma join_blocks (contexts : list value) :
  contexts <> [] ->
  join [LF] (flat_map (fun c => block_lines c ++ [[]]) contexts)
  = join [LF; LF] (map (fun c => join [LF] (block_lines c)) contexts) ++ [LF].
Proof.
  induction contexts as [|c cs IH]; [congruence|]; intros _.
  assert (Hb : block_lines c <> []) by (unfold block_lines; discriminate).
  destruct cs as [|c' cs].
  - cbn [flat_map map]; rewrite app_nil_r.
    rewrite join_snoc_empty by assumption; reflexivity.
  - change (flat_map (fun c => block_lines c ++ [[]]) (c :: c' :: cs))
      with ((block_lines c ++ [[]])
              ++ flat_map (fun c => block_lines c ++ [[]]) (c' :: cs)).
    rewrite join_app.
    + rewrite IH by discriminate.
      rewrite join_snoc_empty by assumption.
      change (map (fun c => join [LF] (block_lines c)) (c :: c' :: cs))
        with (join [LF] (block_lines c)
                :: map (fun c => join [LF] (block_lines c)) (c' :: cs)).
      rewrite join_cons by discriminate.
      rewrite <- !app_assoc; reflexivity.
    + destruct (block_lines c); discriminate.
    + cbn [flat_map]; destruct (block_lines c'); discriminate.
Qed.

Lemma render_contexts_ok (contexts : list value) :
  forallb wf_context contexts = true ->
  render_contexts contexts = Ok (rendered_text contexts).
Proof.
  intros H; unfold render_contexts, rendered_text.
  rewrite render_loop_ok by assumption; simpl bind.
  destruct contexts as [|c cs]; [reflexivity|].
  rewrite join_blocks by discriminate.
  now rewrite strip_snoc_LF.
Qed.

(* ===================================================================== *)
(** ** Lemmas on [splitlines] *)
(* ===================================================================== *)

Lemma splitlines_cons (x : N) (s : pystr) :
  splitlines (x :: s)
  = if is_linebreak x then
      [] :: match s with
            | c' :: s'' =>
                if (x =? CR)%N && (c' =? LF)%N then splitlines s''
                else splitlines s
            | [] => []
            end
    else
      match splitlines s with
      | [] => [[x]]
      | l :: ls => (x :: l) :: ls
      end.
Proof. destruct s; reflexivity. Qed.

Lemma splitlines_nil (s : pystr) : splitlines s = [] -> s = [].
Proof.
  destruct s as [|x s]; [reflexivity|].
  rewrite splitlines_cons.
  destruct (is_linebreak x); [discriminate|].
  destruct (splitlines s); discriminate.
Qed.

Lemma ends_with_break_cons (x : N) (s : pystr) :
  s <> [] -> ends_with_break (x :: s) = ends_with_break s.
Proof.
  intros Hs; unfold ends_with_break; simpl rev.
  destruct (rev s) as [|y r] eqn:E; [|reflexivity].
  apply (f_equal (@rev N)) in E; rewrite rev_involutive in E.
  simpl in E; congruence.
Qed.

Lemma splitlines_snoc_LF_bounded (n : nat) (s : pystr) :
  (List.length s <= n)%nat -> s <> [] -> ends_with_break s = false ->
  splitlines (s ++ [LF]) = splitlines s.
Proof.
  revert s; induction n as [|n IH]; intros s Hlen Hs Hend.
  - destruct s; [congruence | simpl in Hlen; lia].
  - destruct s as [|x s]; [congruence|].
    simpl in Hlen.
    change ((x :: s) ++ [LF]) with (x :: (s ++ [LF])).
    rewrite !splitlines_cons.
    destruct (is_linebreak x) eqn:Hx.
    + f_equal.
      destruct s as [|c' s''].
      * (* the string is one boundary: it must be a carriage return *)
        unfold ends_with_break in Hend; simpl in Hend.
        rewrite Hx in Hend; simpl in Hend.
        apply negb_false_iff in Hend.
        simpl; now rewrite Hend.
      * change ((c' :: s'') ++ [LF]) with (c' :: (s'' ++ [LF])).
        cbv iota beta.
        rewrite ends_with_break_cons in Hend by discriminate.
        destruct ((x =? CR)%N && (c' =? LF)%N) eqn:Hcrlf.
        -- destruct s'' as [|c'' s3].
           ++ apply andb_true_iff in Hcrlf as [_ Hc'].
              apply N.eqb_eq in Hc'; subst c'.
              discriminate Hend.
           ++ rewrite ends_with_break_cons in Hend by discriminate.
              apply IH; [simpl in *; lia | discriminate | exact Hend].
        -- apply (IH (c' :: s'')); [simpl in *; lia | discriminate | exact Hend].
    + destruct s as [|c' s''].
      * reflexivity.
      * rewrite ends_with_break_cons in Hend by discriminate.
        rewrite (IH (c' :: s'')); [reflexivity | lia | discriminate | exact Hend].
Qed.

(** A line feed put after a string that does not end in a line boundary (a
    carriage return apart) adds no line. *)
Lemma splitlines_snoc_LF (s : pystr) :
  s <> [] -> ends_with_break s = false ->
  splitlines (s ++ [LF]) = splitlines s.
Proof. apply (@splitlines_snoc_LF_bounded (List.length s)); lia. Qed.

(* ===================================================================== *)
(** ** Lemmas on the exceptions and on the fields read *)
(* ===================================================================== *)

Lemma foldM_raises {A B} (P : exn -> Prop) (body : A -> B -> result A) :
  (forall acc b e, body acc b = Raise e -> P e) ->
  forall l acc e, foldM body acc l = Raise e -> P e.
Proof.
  intros Hbody; induction l as [|b l IH]; intros acc e; simpl.
  - discriminate.
  - destruct (body acc b) as [acc'|e'] eqn:E; simpl.
    + apply IH.
    + intros [= <-]; exact (Hbody _ _ _ E).
Qed.

Lemma py_iter_raises (v : value) (e : exn) :
  py_iter v = Raise e -> e = TypeError.
Proof. destruct v; simpl; congruence. Qed.

Lemma render_message_raises (lines : list pystr) (message : value) (e : exn) :
  render_message lines message = Raise e -> e = AttributeError.
Proof.
  destruct message as [| | | | | |d]; try (intros [= <-]; reflexivity).
  rewrite render_message_dict.
  destruct (field d (lit "content") (VStr [])); congruence.
Qed.

Lemma render_link_raises (lines : list pystr) (link : value) (e : exn) :
  render_link lines link = Raise e -> e = AttributeError.
Proof.
  destruct link as [| | | | | |d];
    [intros [= <-]; reflexivity .. | rewrite render_link_dict; discriminate].
Qed.

Lemma render_context_raises (lines : list pystr) (context : value) (e : exn) :
  render_context lines context = Raise e ->
  e = AttributeError \/ e = TypeError.
Proof.
  destruct context as [| | | | | |d]; try (intros [= <-]; left; reflexivity).
  unfold render_context; simpl py_get; simpl bind; unfold bind.
  destruct (py_iter (py_or (dict_get d (lit "messages")) (VList [])))
    as [messages|e1] eqn:E1;
    [|intros [= <-]; right; exact (py_iter_raises _ E1)].
  match goal with
  | |- context [foldM render_message ?acc messages] =>
      destruct (foldM render_message acc messages) as [lines1|e2] eqn:E2
  end;
    [|intros [= <-]; left;
      exact (@foldM_raises _ _ (fun e => e = AttributeError) render_message
               render_message_raises _ _ _ E2)].
  destruct (py_iter (py_or (dict_get d (lit "links")) (VList [])))
    as [links|e3] eqn:E3;
    [|intros [= <-]; right; exact (py_iter_raises _ E3)].
  destruct (foldM render_link lines1 links) as [lines2|e4] eqn:E4;
    [discriminate|].
  intros [= <-]; left.
  exact (@foldM_raises _ _ (fun e => e = AttributeError) render_link
           render_link_raises _ _ _ E4).
Qed.

Lemma render_contexts_raises (contexts : list value) (e : exn) :
  render_contexts contexts = Raise e -> e = AttributeError \/ e = TypeError.
Proof.
  unfold render_contexts.
  destruct (foldM render_context [] contexts) as [lines|e'] eqn:E; simpl;
    [discriminate|].
  intros [= <-].
  exact (@foldM_raises _ _ (fun e => e = AttributeError \/ e = TypeError)
           render_context render_context_raises _ _ _ E).
Qed.

Lemma render_context_ext (lines : list pystr) (d d' : dict) :
  field d (lit "source") (VStr (lit "unknown file"))
  = field d' (lit "source") (VStr (lit "unknown file")) ->
  field d (lit "timestamp") (VStr (lit "unknown time"))
  = field d' (lit "timestamp") (VStr (lit "unknown time")) ->
  field d (lit "messages") (VList []) = field d' (lit "messages") (VList []) ->
  field d (lit "links") (VList []) = field d' (lit "links") (VList []) ->
  render_context lines (VDict d) = render_context lines (VDict d').
Proof.
  unfold render_context, field; simpl py_get; simpl bind.
  now intros -> -> -> ->.
Qed.

Lemma render_message_ext (lines : list pystr) (d d' : dict) :
  field d (lit "author") (VStr (lit "Unknown"))
  = field d' (lit "author") (VStr (lit "Unknown")) ->
  field d (lit "content") (VStr []) = field d' (lit "content") (VStr []) ->
  render_message lines (VDict d) = render_message lines (VDict d').
Proof.
  unfold render_message, field; simpl py_get; simpl bind.
  now intros -> ->.
Qed.

Lemma render_link_ext (lines : list pystr) (d d' : dict) :
  field d (lit "url") (VStr []) = field d' (lit "url") (VStr []) ->
  field d (lit "posted_by") (VStr (lit "Unknown"))
  = field d' (lit "posted_by") (VStr (lit "Unknown")) ->
  field d (lit "description") (VStr [])
  = field d' (lit "description") (VStr []) ->
  render_link lines (VDict d) = render_link lines (VDict d').
Proof.
  unfold render_link, field; simpl py_get; simpl bind.
  now intros -> -> ->.
Qed.

Lemma field_absent (d : dict) (k : pystr) (default : value) :
  lookup d k = None -> field d k default = default.
Proof. intros H; unfold field, dict_get; now rewrite H. Qed.

(** The lines the blocks are made of, before they are joined. *)
Lemma render_contexts_lines (contexts : list value) :
  forallb wf_context contexts = true ->
  render_contexts contexts
  = Ok (strip (join [LF]
                 (flat_map (fun c => block_lines c ++ [[]]) contexts))).
Proof.
  intros H; unfold render_contexts; now rewrite render_loop_ok.
Qed.

(* ===================================================================== *)
(** ** The renderer: totality *)
(* ===================================================================== *)

(** C1, as the claim states it, fails: a message whose content is a number
    makes [render_contexts] raise. The input is the parsed form of
    [[{"messages": [{"content": 5}]}]]; the call of [splitlines] on the
    integer raises [AttributeError]. *)
Lemma render_contexts_raises_on_number_content :
  render_contexts
    [VDict [(lit "messages", VList [VDict [(lit "content", VInt 5)]])]]
  = Raise AttributeError.
Proof. vm_compute. reflexivity. Qed.

(** C1, amended: [render_contexts] returns a text exactly on the sequences of
    contexts in which every context, message and link is an object, the
    fields [messages] and [links] are absent, false or lists, and the field
    [content] is absent, false or a string; on every other sequence it
    raises [AttributeError] or [TypeError]. An absent field renders like its
    default: [source] like [unknown file], [timestamp] like [unknown time],
    [author] and [posted_by] like [Unknown], [content], [url] and
    [description] like the empty string, [messages] and [links] like the
    empty list; so a record with no field at all renders as the header of
    the unknown file and time, as the author [Unknown] with an empty text,
    and as no line for a link. *)
Theorem render_contexts_total (contexts : list value) (lines : list pystr) :
  ((exists text, render_contexts contexts = Ok text)
   <-> forallb wf_context contexts = true)
  /\ (forallb wf_context contexts = false ->
      render_contexts contexts = Raise AttributeError
      \/ render_contexts contexts = Raise TypeError)
  /\ (absent_as_default render_context (lit "source")
        (VStr (lit "unknown file"))
      /\ absent_as_default render_context (lit "timestamp")
           (VStr (lit "unknown time"))
      /\ absent_as_default render_context (lit "messages") (VList [])
      /\ absent_as_default render_context (lit "links") (VList [])
      /\ absent_as_default render_message (lit "author")
           (VStr (lit "Unknown"))
      /\ absent_as_default render_message (lit "content") (VStr [])
      /\ absent_as_default render_link (lit "url") (VStr [])
      /\ absent_as_default render_link (lit "posted_by")
           (VStr (lit "Unknown"))
      /\ absent_as_default render_link (lit "description") (VStr []))
  /\ render_context lines (VDict [])
     = Ok (lines ++ [lit "=== unknown file @ unknown time ==="; []])
  /\ render_message lines (VDict []) = Ok (lines ++ [lit "Unknown: "])
  /\ render_link lines (VDict []) = Ok lines.
Proof.
  split; [split | split; [|split; [|split; [|split]]]].
  - intros [text H].
    destruct (forallb wf_context contexts) eqn:E; [reflexivity|].
    destruct (render_loop_fails contexts E) as [e He].
    unfold render_contexts in H; rewrite He in H; discriminate.
  - intros H; exists (rendered_text contexts); now apply render_contexts_ok.
  - intros E.
    destruct (render_loop_fails contexts E) as [e He].
    assert (H : render_contexts contexts = Raise e)
      by (unfold render_contexts; now rewrite He).
    destruct (render_contexts_raises _ H) as [-> | ->]; auto.
  - unfold absent_as_default.
    repeat match goal with
           | |- _ /\ _ => split
           end;
      intros ls d Hk;
      first [apply render_context_ext
            | apply render_message_ext
            | apply render_link_ext];
      first [rewrite field_set_same, (@field_absent _ _ _ Hk); reflexivity
            | rewrite field_set_other by reflexivity; reflexivity].
  - rewrite render_context_ok by reflexivity; reflexivity.
  - rewrite render_message_ok by reflexivity; reflexivity.
  - rewrite render_link_ok by reflexivity.
    change (link_lines (VDict [])) with (@nil pystr); apply f_equal, app_nil_r.
Qed.

Lemma render_contexts_total_witness :
  (render_contexts [VDict [(lit "links", VInt 3)]] = Raise AttributeError
   \/ render_contexts [VDict [(lit "links", VInt 3)]] = Raise TypeError)
  /\ render_message [] (VDict [(lit "content", VStr (lit "hi"))])
     = render_message []
         (VDict (dict_set [(lit "content", VStr (lit "hi"))] (lit "author")
                   (VStr (lit "Unknown")))).
Proof.
  pose proof (@render_contexts_total [VDict [(lit "links", VInt 3)]] [])
    as [_ [Hraise [[_ [_ [_ [_ [Hauthor _]]]]] _]]].
  split; [exact (Hraise eq_refl)|].
  exact (Hauthor [] [(lit "content", VStr (lit "hi"))] eq_refl).
Defined.

(* ===================================================================== *)
(** ** The renderer: the example of the specification *)
(* ===================================================================== *)

(** C2: the document [{"contexts": [{"source": "chat.log", "timestamp":
    "t1", "messages": [], "links": [{"url": "https://x", "description":
    "cool", "posted_by": "alice"}]}]}], loaded and rendered, gives the three
    lines of the specification joined by line feeds, and nothing after
    them. *)
Theorem render_contexts_example :
  (contexts <- load_contexts ex_doc ;; render_contexts contexts)
  = Ok (lit "=== chat.log @ t1 ===" ++ [LF]
          ++ lit "    [link] https://x (posted by alice)" ++ [LF]
          ++ lit "    [description] cool").
Proof. vm_compute. reflexivity. Qed.

(* ===================================================================== *)
(** ** The renderer: messages and links *)
(* ===================================================================== *)

(** C4: in the text [render_contexts] returns for contexts it accepts, a
    message whose author reads [a] and whose content is the string [c]
    stands, after the lines of the contexts and messages before it and
    before the lines of what follows, as the line [a: first line of c], then
    each further line of [c] on a line of its own behind four spaces and
    without the author. An empty content gives the one line [a: ] with
    nothing after it. The content of two lines [a], [b] by [Sam] renders as
    [Sam: a] and [    b]. *)
Theorem render_message_lines
    (before after : list value) (d : dict)
    (earlier later : list value) (dm : dict) (a c : pystr)
    (lines : list pystr) :
  forallb wf_context (before ++ VDict d :: after) = true ->
  field d (lit "messages") (VList []) = VList (earlier ++ VDict dm :: later) ->
  field dm (lit "author") (VStr (lit "Unknown")) = VStr a ->
  field dm (lit "content") (VStr []) = VStr c ->
  render_contexts (before ++ VDict d :: after)
  = Ok (strip (join [LF]
         ((flat_map (fun c => block_lines c ++ [[]]) before
           ++ header_line (VDict d) :: flat_map message_lines earlier)
          ++ ((a ++ lit ": " ++ hd [] (splitlines c))
              :: map (app (lit "    ")) (tl (splitlines c)))
          ++ (flat_map message_lines later
              ++ flat_map link_lines (sequence d (lit "links"))
              ++ [[]]
              ++ flat_map (fun c => block_lines c ++ [[]]) after))))
  /\ render_message lines (VDict dm)
     = Ok (lines
             ++ (a ++ lit ": " ++ hd [] (splitlines c))
             :: map (app (lit "    ")) (tl (splitlines c)))
  /\ (c = [] ->
      render_message lines (VDict dm) = Ok (lines ++ [a ++ lit ": "]))
  /\ render_contexts
       [VDict [(lit "messages",
                VList [VDict [(lit "author", VStr (lit "Sam"));
                              (lit "content",
                               VStr (lit "a" ++ [LF] ++ lit "b"))]])]]
     = Ok (lit "=== unknown file @ unknown time ===" ++ [LF]
             ++ lit "Sam: a" ++ [LF]
             ++ lit "    b").
Proof.
  intros W Hm Ha Hc.
  assert (Hml : message_lines (VDict dm)
                = (a ++ lit ": " ++ hd [] (splitlines c))
                  :: map (app (lit "    ")) (tl (splitlines c)))
    by (unfold message_lines, as_dict; now rewrite Ha, Hc).
  assert (E : render_message lines (VDict dm)
              = Ok (lines
                      ++ (a ++ lit ": " ++ hd [] (splitlines c))
                      :: map (app (lit "    ")) (tl (splitlines c)))).
  { rewrite render_message_dict, Hc; now rewrite Hml. }
  split; [|split; [exact E | split; [|vm_compute; reflexivity]]].
  - assert (Hseq : sequence d (lit "messages") = earlier ++ VDict dm :: later)
      by (unfold sequence; now rewrite Hm).
    rewrite render_contexts_lines by assumption.
    do 3 f_equal.
    rewrite flat_map_app; cbn [flat_map].
    unfold block_lines at 2; cbv zeta; unfold as_dict.
    rewrite Hseq, flat_map_app; cbn [flat_map]; rewrite Hml.
    repeat (rewrite <- app_assoc || rewrite <- app_comm_cons).
    reflexivity.
  - intros ->; rewrite E; reflexivity.
Qed.

Lemma render_message_lines_witness :
  render_contexts
    [VDict [(lit "source", VStr (lit "a.log"));
            (lit "messages",
             VList [VDict [(lit "author", VStr (lit "Sam"));
                           (lit "content", VStr (lit "hi"))];
                    VDict [(lit "author", VStr (lit "Bo"));
                           (lit "content",
                            VStr (lit "one" ++ [CR; LF] ++ lit "two"))]])];
     VDict [(lit "timestamp", VStr (lit "t2"));
            (lit "links",
             VList [VDict [(lit "url", VStr (lit "https://y"))];
                    VDict [(lit "description", VStr (lit "last "))]])]]
  = Ok (strip (join [LF]
         [lit "=== a.log @ unknown time ==="; lit "Sam: hi";
          lit "Bo: one"; lit "    two"; [];
          lit "=== unknown file @ t2 ===";
          lit "    [link] https://y (posted by Unknown)";
          lit "    [description] last "; []])).
Proof.
  exact (proj1 (@render_message_lines
    [] [VDict [(lit "timestamp", VStr (lit "t2"));
               (lit "links",
                VList [VDict [(lit "url", VStr (lit "https://y"))];
                       VDict [(lit "description", VStr (lit "last "))]])]]
    [(lit "source", VStr (lit "a.log"));
     (lit "messages",
      VList [VDict [(lit "author", VStr (lit "Sam"));
                    (lit "content", VStr (lit "hi"))];
             VDict [(lit "author", VStr (lit "Bo"));
                    (lit "content",
                     VStr (lit "one" ++ [CR; LF] ++ lit "two"))]])]
    [VDict [(lit "author", VStr (lit "Sam"));
            (lit "content", VStr (lit "hi"))]]
    []
    [(lit "author", VStr (lit "Bo"));
     (lit "content", VStr (lit "one" ++ [CR; LF] ++ lit "two"))]
    (lit "Bo") (lit "one" ++ [CR; LF] ++ lit "two") []
    eq_refl eq_refl eq_refl eq_refl)).
Defined.

(** C5: in the text [render_contexts] returns for contexts it accepts, a
    link whose url reads [u], whose description reads [ds] and whose poster
    reads [p] stands, after the header, the messages and the links before it
    and before the lines of what follows, as the line
    [    [link] u (posted by p)] exactly when [u] is not empty, and then the
    line [    [description] ds] exactly when [ds] is not empty: with an empty
    url and a description, the description line alone; with both empty, no
    line at all. *)
Theorem render_link_lines
    (before after : list value) (d : dict)
    (earlier later : list value) (dl : dict) (u ds p : pystr)
    (lines : list pystr) :
  forallb wf_context (before ++ VDict d :: after) = true ->
  field d (lit "links") (VList []) = VList (earlier ++ VDict dl :: later) ->
  field dl (lit "url") (VStr []) = VStr u ->
  field dl (lit "description") (VStr []) = VStr ds ->
  field dl (lit "posted_by") (VStr (lit "Unknown")) = VStr p ->
  render_contexts (before ++ VDict d :: after)
  = Ok (strip (join [LF]
         ((flat_map (fun c => block_lines c ++ [[]]) before
           ++ header_line (VDict d)
              :: flat_map message_lines (sequence d (lit "messages"))
           ++ flat_map link_lines earlier)
          ++ (match u with
              | [] => []
              | _ :: _ =>
                  [lit "    [link] " ++ u ++ lit " (posted by " ++ p
                     ++ lit ")"]
              end
              ++ match ds with
                 | [] => []
                 | _ :: _ => [lit "    [description] " ++ ds]
                 end)
          ++ (flat_map link_lines later
              ++ [[]]
              ++ flat_map (fun c => block_lines c ++ [[]]) after))))
  /\ render_link lines (VDict dl)
     = Ok (lines
             ++ match u with
                | [] => []
                | _ :: _ =>
                    [lit "    [link] " ++ u ++ lit " (posted by " ++ p
                       ++ lit ")"]
                end
             ++ match ds with
                | [] => []
                | _ :: _ => [lit "    [description] " ++ ds]
                end)
  /\ (u = [] -> ds <> [] ->
      render_link lines (VDict dl)
      = Ok (lines ++ [lit "    [description] " ++ ds]))
  /\ (u = [] -> ds = [] -> render_link lines (VDict dl) = Ok lines).
Proof.
  intros W Hl Hu Hd Hp.
  assert (Hll : link_lines (VDict dl)
                = match u with
                  | [] => []
                  | _ :: _ =>
                      [lit "    [link] " ++ u ++ lit " (posted by " ++ p
                         ++ lit ")"]
                  end
                  ++ match ds with
                     | [] => []
                     | _ :: _ => [lit "    [description] " ++ ds]
                     end).
  { unfold link_lines, as_dict; rewrite Hu, Hd, Hp.
    destruct u, ds; reflexivity. }
  assert (E : render_link lines (VDict dl)
              = Ok (lines
                      ++ match u with
                         | [] => []
                         | _ :: _ =>
                             [lit "    [link] " ++ u ++ lit " (posted by "
                                ++ p ++ lit ")"]
                         end
                      ++ match ds with
                         | [] => []
                         | _ :: _ => [lit "    [description] " ++ ds]
                         end)).
  { rewrite render_link_dict; now rewrite Hll. }
  split; [|split; [exact E | split]].
  - assert (Hseq : sequence d (lit "links") = earlier ++ VDict dl :: later)
      by (unfold sequence; now rewrite Hl).
    rewrite render_contexts_lines by assumption.
    do 3 f_equal.
    rewrite flat_map_app; cbn [flat_map].
    unfold block_lines at 2; cbv zeta; unfold as_dict.
    rewrite Hseq, flat_map_app; cbn [flat_map]; rewrite Hll.
    repeat (rewrite <- app_assoc || rewrite <- app_comm_cons).
    reflexivity.
  - intros -> Hds; rewrite E; destruct ds; [congruence | reflexivity].
  - intros -> ->; rewrite E; cbn [app]; now rewrite app_nil_r.
Qed.

Lemma render_link_lines_witness :
  render_contexts ex_two_contexts
  = Ok (strip (join [LF]
         [lit "=== a.log @ unknown time ==="; lit "Sam: hi"; lit "Bo: yo ";
          [];
          lit "=== unknown file @ t2 ===";
          lit "    [link] https://y (posted by Unknown)";
          lit "    [description] last "; []])).
Proof.
  exact (proj1 (@render_link_lines
    [VDict [(lit "source", VStr (lit "a.log"));
            (lit "messages",
             VList [VDict [(lit "author", VStr (lit "Sam"));
                           (lit "content", VStr (lit "hi"))];
                    VDict [(lit "author", VStr (lit "Bo"));
                           (lit "content", VStr (lit "yo "))]])]]
    []
    [(lit "timestamp", VStr (lit "t2"));
     (lit "links",
      VList [VDict [(lit "url", VStr (lit "https://y"))];
             VDict [(lit "description", VStr (lit "last "))]])]
    [VDict [(lit "url", VStr (lit "https://y"))]]
    []
    [(lit "description", VStr (lit "last "))]
    [] (lit "last ") (lit "Unknown") []
    eq_refl eq_refl eq_refl eq_refl eq_refl)).
Defined.

(* ===================================================================== *)
(** ** The renderer: the blocks and their order *)
(* ===================================================================== *)

(** C6: on contexts the renderer accepts, the text is made of one block per
    context, in the order of the input; a block is the header line of the
    context, then the lines of its messages in their order, then the lines
    of its links in their order, joined by line feeds; two blocks are one
    blank line apart (two line feeds); and the whole is stripped, so that it
    neither starts nor ends with a white space character. *)
Theorem render_contexts_blocks (contexts : list value) :
  forallb wf_context contexts = true ->
  render_contexts contexts
  = Ok (strip
          (join [LF; LF]
             (map (fun c =>
                     join [LF]
                       (header_line c
                        :: flat_map message_lines
                             (sequence (as_dict c) (lit "messages"))
                        ++ flat_map link_lines
                             (sequence (as_dict c) (lit "links"))))
                contexts)))
  /\ (forall text c,
        render_contexts contexts = Ok text ->
        hd_error text = Some c \/ hd_error (rev text) = Some c ->
        is_space c = false).
Proof.
  intros H; split.
  - now apply render_contexts_ok.
  - intros text c Ht Hc.
    rewrite (render_contexts_ok _ H) in Ht; injection Ht as <-.
    unfold rendered_text in Hc.
    destruct Hc as [Hc | Hc].
    + eapply strip_no_leading_space; exact Hc.
    + eapply strip_no_trailing_space; exact Hc.
Qed.

Lemma render_contexts_blocks_witness :
  render_contexts ex_two_contexts
  = Ok (lit "=== a.log @ unknown time ===" ++ [LF]
          ++ lit "Sam: hi" ++ [LF]
          ++ lit "Bo: yo " ++ [LF]
          ++ [LF]
          ++ lit "=== unknown file @ t2 ===" ++ [LF]
          ++ lit "    [link] https://y (posted by Unknown)" ++ [LF]
          ++ lit "    [description] last").
Proof.
  exact (proj1 (@render_contexts_blocks ex_two_contexts eq_refl)).
Defined.

(* ===================================================================== *)
(** ** The renderer: empty fields *)
(* ===================================================================== *)

(** The fields of two records that differ in the field [k] only. *)
Ltac other_field :=
  rewrite ?field_set_other, ?field_del_other by reflexivity; reflexivity.

Ltac this_field :=
  rewrite ?field_set_same, ?field_del_same; reflexivity.

Ltac same_fields := first [this_field | other_field].

(** C9: an empty string renders like the absent field, and like the default
    itself: [source] like [unknown file], [timestamp] like [unknown time],
    [author] and [posted_by] like [Unknown]; the fields [messages] and
    [links], when they hold [None], render like the absent field and like
    the empty list. *)
Theorem empty_fields_render_as_defaults :
  same_as_default render_context (lit "source")
    (VStr []) (VStr (lit "unknown file"))
  /\ same_as_default render_context (lit "timestamp")
       (VStr []) (VStr (lit "unknown time"))
  /\ same_as_default render_context (lit "messages") VNone (VList [])
  /\ same_as_default render_context (lit "links") VNone (VList [])
  /\ same_as_default render_message (lit "author")
       (VStr []) (VStr (lit "Unknown"))
  /\ same_as_default render_link (lit "posted_by")
       (VStr []) (VStr (lit "Unknown"))
  /\ render_contexts ex_empty_fields
     = Ok (lit "=== unknown file @ unknown time ===" ++ [LF]
             ++ lit "    [link] https://x (posted by Unknown)" ++ [LF]
             ++ [LF]
             ++ lit "=== unknown file @ unknown time ===" ++ [LF]
             ++ lit "Unknown: hello").
Proof.
  unfold same_as_default.
  repeat match goal with
         | |- _ /\ _ => split
         | |- forall _, _ => intro
         end;
    try (apply render_context_ext; same_fields);
    try (apply render_message_ext; same_fields);
    try (apply render_link_ext; same_fields).
  vm_compute; reflexivity.
Qed.

(* ===================================================================== *)
(** ** The renderer: a line feed after the content *)
(* ===================================================================== *)

(** C10, as the claim states it, fails: after a content that already ends
    in a line feed, one more line feed is one more (empty) line, which
    renders as a line of four spaces. *)
Lemma render_contexts_second_line_feed :
  render_contexts (ex_two_messages (lit "a" ++ [LF]))
  = Ok (lit "=== unknown file @ unknown time ===" ++ [LF]
          ++ lit "Sam: a" ++ [LF]
          ++ lit "Bo: b")
  /\ render_contexts (ex_two_messages ((lit "a" ++ [LF]) ++ [LF]))
     = Ok (lit "=== unknown file @ unknown time ===" ++ [LF]
             ++ lit "Sam: a" ++ [LF]
             ++ lit "    " ++ [LF]
             ++ lit "Bo: b").
Proof. split; vm_compute; reflexivity. Qed.

(** C10, amended: for a content [c] that does not end in a line boundary (a
    carriage return apart, which the line feed joins), the message renders
    to the same lines with [c] and with [c] followed by one line feed; the
    content that is one line feed renders like the empty content. *)
Theorem render_message_trailing_line_feed
    (lines : list pystr) (d : dict) (c : pystr) :
  ends_with_break c = false ->
  render_message lines (VDict (dict_set d (lit "content") (VStr (c ++ [LF]))))
  = render_message lines (VDict (dict_set d (lit "content") (VStr c)))
  /\ render_message lines (VDict (dict_set d (lit "content") (VStr [LF])))
     = render_message lines (VDict (dict_set d (lit "content") (VStr []))).
Proof.
  intros Hend.
  assert (Hone : render_message lines
                   (VDict (dict_set d (lit "content") (VStr [LF])))
                 = render_message lines
                     (VDict (dict_set d (lit "content") (VStr [])))).
  { rewrite !render_message_dict.
    unfold message_lines, as_dict.
    rewrite !field_set_same.
    rewrite !(@field_set_other d (lit "content") (lit "author")) by reflexivity.
    reflexivity. }
  split; [|exact Hone].
  destruct c as [|x c]; [exact Hone|].
  rewrite !render_message_dict.
  unfold message_lines, as_dict.
  rewrite !field_set_same.
  rewrite !(@field_set_other d (lit "content") (lit "author")) by reflexivity.
  change (py_or (VStr ((x :: c) ++ [LF])) (VStr []))
    with (VStr ((x :: c) ++ [LF])).
  change (py_or (VStr (x :: c)) (VStr [])) with (VStr (x :: c)).
  cbv iota beta.
  now rewrite splitlines_snoc_LF by (discriminate || assumption).
Qed.

Lemma render_message_trailing_line_feed_witness :
  render_message []
    (VDict (dict_set [(lit "author", VStr (lit "Sam"))] (lit "content")
              (VStr ((lit "a" ++ [LF] ++ lit "b" ++ [CR]) ++ [LF]))))
  = render_message []
      (VDict (dict_set [(lit "author", VStr (lit "Sam"))] (lit "content")
                (VStr (lit "a" ++ [LF] ++ lit "b" ++ [CR])))).
Proof.
  exact (proj1 (@render_message_trailing_line_feed []
    [(lit "author", VStr (lit "Sam"))] (lit "a" ++ [LF] ++ lit "b" ++ [CR])
    eq_refl)).
Defined.

(* ===================================================================== *)
(** ** The loader and the run *)
(* ===================================================================== *)





(* ===================================================================== *)
(** ** The completion wrapper and the failures of the provider *)
(* ===================================================================== *)

(** C7, as the claim states it, fails: a response that has no choice has no
    first choice to return the content of; [run_completion] raises
    [IndexError] on it. *)
Lemma run_completion_raises_without_choice :
  run_completion ex_client_no_choice default_model
    (lit "=== chat.log @ t1 ===") default_temperature
  = Raise IndexError.
Proof. reflexivity. Qed.

(** C7, amended: when the provider answers the request with a response,
    [run_completion] returns the text content of the first choice of the
    response, and the empty string when that choice has no content; when the
    response has no choice at all, it raises [IndexError]. *)
Theorem run_completion_first_choice
    (cl : client) (model context : pystr) (temperature : pyfloat)
    (resp : response) :
  cl (completion_request model context temperature) = Ok resp ->
  (forall first others,
      choices resp = first :: others ->
      run_completion cl model context temperature
      = Ok (match message_content first with
            | Some text => text
            | None => []
            end)
      /\ (message_content first = None ->
          run_completion cl model context temperature = Ok []))
  /\ (choices resp = [] ->
      run_completion cl model context temperature = Raise IndexError).
Proof.
  intros Hcl; unfold run_completion; rewrite Hcl; simpl.
  split.
  - intros first others ->; split.
    + destruct (message_content first) as [[|c s]|]; reflexivity.
    + now intros ->.
  - now intros ->.
Qed.

Lemma run_completion_first_choice_witness :
  run_completion (ex_client (Some (lit "<ul></ul>"))) default_model
    (lit "=== chat.log @ t1 ===") default_temperature
  = Ok (lit "<ul></ul>")
  /\ run_completion ex_client_no_choice default_model
       (lit "=== chat.log @ t1 ===") default_temperature
     = Raise IndexError.
Proof.
  split.
  - exact (proj1 (proj1 (@run_completion_first_choice
      (ex_client (Some (lit "<ul></ul>"))) default_model
      (lit "=== chat.log @ t1 ===") default_temperature _ eq_refl)
      _ _ eq_refl)).
  - exact (proj2 (@run_completion_first_choice
      ex_client_no_choice default_model
      (lit "=== chat.log @ t1 ===") default_temperature _ eq_refl) eq_refl).
Defined.

(** C8: in a run that reaches the provider (a credential is there, the
    contexts are loaded, not empty, and rendered), a failure of the provider
    of one of the four kinds ends the run with status 1 and the message
    [OpenAI API error: ] followed by the failure's text, and a completion that
    is empty once stripped ends it with status 1 and the message of the empty
    newsletter; in both cases the files written and the texts printed are
    what they were before the run. *)
Theorem main_provider_failure
    (a : args) (w : world) (st : effects) (k : N) (key : pystr)
    (contexts : list value) (context : pystr) :
  or_else (api_key a) (env_api_key w) = Some (k :: key) ->
  load_contexts (read_json w (input a)) = Ok contexts ->
  contexts <> [] ->
  render_contexts contexts = Ok context ->
  (forall kind msg,
      provider w (k :: key)
        (completion_request (model a) context (temperature a))
      = Raise (ProviderError kind msg) ->
      main a w st
      = (Raise (SystemExit (lit "OpenAI API error: " ++ msg)), st)
      /\ exit_status (fst (main a w st)) = 1%Z)
  /\ (forall text,
        run_completion (provider w (k :: key)) (model a) context
          (temperature a)
        = Ok text ->
        strip text = [] ->
        main a w st
        = (Raise (SystemExit (lit "Model returned an empty newsletter.")), st)
        /\ exit_status (fst (main a w st)) = 1%Z).
Proof.
  intros Hkey Hload Hne Hrender.
  destruct contexts as [|c0 cs]; [congruence|].
  split.
  - intros kind msg Hp.
    assert (E : main a w st
                = (Raise (SystemExit (lit "OpenAI API error: " ++ msg)), st)).
    { unfold main; rewrite Hkey.
      unfold io_bind, io_lift; rewrite Hload, Hrender.
      unfold completion_or_exit, run_completion; rewrite Hp; reflexivity. }
    rewrite E; split; reflexivity.
  - intros text Hrun Hblank.
    assert (E : main a w st
                = (Raise (SystemExit
                            (lit "Model returned an empty newsletter.")), st)).
    { unfold main; rewrite Hkey.
      unfold io_bind, io_lift; rewrite Hload, Hrender.
      unfold completion_or_exit; rewrite Hrun; simpl bind; rewrite Hblank.
      reflexivity. }
    rewrite E; split; reflexivity.
Qed.

Lemma main_provider_failure_witness :
  main ex_args ex_world_timeout no_effects
  = (Raise (SystemExit (lit "OpenAI API error: Request timed out.")),
     no_effects).
Proof.
  refine (proj1 (proj1 (@main_provider_failure
    ex_args ex_world_timeout no_effects _ _ _ _
    eq_refl eq_refl _ eq_refl) APITimeoutError (lit "Request timed out.")
    eq_refl)).
  discriminate.
Defined.

(* ===================================================================== *)
(** ** The effects of the run *)
(* ===================================================================== *)





(* ===================================================================== *)
(** ** More on [strip] *)
(* ===================================================================== *)

Lemma str_eqb_neq (a b : pystr) : a <> b -> str_eqb a b = false.
Proof.
  intros H; destruct (str_eqb a b) eqn:E; [|reflexivity].
  apply str_eqb_eq in E; contradiction.
Qed.

Lemma dropwhile_all (p : N -> bool) (s : pystr) :
  forallb p s = true -> dropwhile p s = [].
Proof.
  induction s as [|x s IH]; simpl; [reflexivity|].
  intros H; apply andb_true_iff in H as [-> H]; auto.
Qed.

Lemma dropwhile_split (p : N -> bool) (s : pystr) :
  exists pre, s = pre ++ dropwhile p s /\ forallb p pre = true.
Proof.
  induction s as [|x s [pre [IH Hp]]]; simpl; [now exists []|].
  destruct (p x) eqn:E.
  - exists (x :: pre); simpl; rewrite E, Hp; split; [now f_equal | reflexivity].
  - now exists [].
Qed.

Lemma forallb_rev (p : N -> bool) (s : pystr) :
  forallb p (rev s) = forallb p s.
Proof.
  induction s as [|x s IH]; simpl; [reflexivity|].
  rewrite forallb_app, IH; simpl; rewrite andb_true_r; apply andb_comm.
Qed.

(** What [rstrip] removes is white space. *)
Lemma rstrip_split (s : pystr) :
  exists gap, s = rstrip s ++ gap /\ forallb is_space gap = true.
Proof.
  unfold rstrip.
  destruct (dropwhile_split is_space (rev s)) as [pre [H Hp]].
  exists (rev pre); split.
  - rewrite <- rev_app_distr, <- H; symmetry; apply rev_involutive.
  - now rewrite forallb_rev.
Qed.

Lemma rstrip_app_nonblank (x y : pystr) :
  rstrip y <> [] -> rstrip (x ++ y) = x ++ rstrip y.
Proof.
  unfold rstrip; intros H.
  rewrite rev_app_distr, dropwhile_app.
  destruct (forallb is_space (rev y)) eqn:E.
  - rewrite (@dropwhile_all is_space (rev y) E) in H; simpl in H; congruence.
  - now rewrite rev_app_distr, rev_involutive.
Qed.

Lemma rstrip_after_nonspace (x y : pystr) (c : N) :
  is_space c = false -> rstrip ((x ++ [c]) ++ y) = (x ++ [c]) ++ rstrip y.
Proof.
  intros Hc; unfold rstrip.
  rewrite rev_app_distr, dropwhile_app, rev_unit.
  destruct (forallb is_space (rev y)) eqn:E.
  - rewrite (@dropwhile_all is_space (rev y) E).
    simpl dropwhile; rewrite Hc.
    simpl rev; now rewrite rev_involutive, app_nil_r.
  - rewrite rev_app_distr; simpl rev; now rewrite rev_involutive.
Qed.

Lemma join_head (sep x : pystr) (rest : list pystr) :
  exists tail, join sep (x :: rest) = x ++ tail.
Proof.
  destruct rest as [|y rest].
  - exists []; simpl; now rewrite app_nil_r.
  - now exists (sep ++ join sep (y :: rest)).
Qed.

(* ===================================================================== *)
(** ** The shape of the rendered text *)
(* ===================================================================== *)

Lemma header_line_end (c : value) : exists h, header_line c = h ++ [0x3d%N].
Proof.
  unfold header_line; cbv zeta.
  eexists.
  change (lit " ===") with (lit " ==" ++ [0x3d%N]).
  rewrite !app_assoc; reflexivity.
Qed.

Lemma header_line_start (c : value) : exists t, header_line c = 0x3d%N :: t.
Proof. unfold header_line; cbv zeta; eexists; reflexivity. Qed.

(** [strip] leaves a header line at the start of a text alone. *)
Lemma strip_header_app (c : value) (rest : pystr) :
  strip (header_line c ++ rest) = header_line c ++ rstrip rest.
Proof.
  unfold strip.
  assert (lstrip (header_line c ++ rest) = header_line c ++ rest) as ->.
  { destruct (header_line_start c) as [t ->]; reflexivity. }
  destruct (header_line_end c) as [h ->].
  now apply rstrip_after_nonspace.
Qed.

Lemma joined_blocks_start (c : value) (cs : list value) :
  exists rest,
    join [LF; LF] (map (fun c => join [LF] (block_lines c)) (c :: cs))
    = header_line c ++ rest.
Proof.
  cbn [map].
  destruct (join_head [LF; LF] (join [LF] (block_lines c))
              (map (fun c => join [LF] (block_lines c)) cs)) as [t1 ->].
  unfold block_lines at 1; cbv zeta.
  destruct (join_head [LF] (header_line c)
              (flat_map message_lines (sequence (as_dict c) (lit "messages"))
               ++ flat_map link_lines (sequence (as_dict c) (lit "links"))))
    as [t2 ->].
  exists (t2 ++ t1); now rewrite app_assoc.
Qed.

Lemma render_contexts_ok_inv (contexts : list value) (text : pystr) :
  render_contexts contexts = Ok text ->
  forallb wf_context contexts = true /\ text = rendered_text contexts.
Proof.
  intros H.
  destruct (forallb wf_context contexts) eqn:E.
  - rewrite (render_contexts_ok _ E) in H; injection H as <-; auto.
  - destruct (render_loop_fails contexts E) as [e He].
    unfold render_contexts in H; rewrite He in H; discriminate.
Qed.

Lemma rendered_text_cons (c : value) (cs : list value) :
  exists rest,
    join [LF; LF] (map (fun c => join [LF] (block_lines c)) (c :: cs))
    = header_line c ++ rest
    /\ rendered_text (c :: cs) = header_line c ++ rstrip rest.
Proof.
  destruct (joined_blocks_start c cs) as [rest H].
  exists rest; split; [exact H|].
  unfold rendered_text; rewrite H; apply strip_header_app.
Qed.

(** X3: the text of a sequence of contexts is empty only for the empty
    sequence; otherwise it begins with the whole header line of the first
    context, which trimming never touches. *)
Theorem render_contexts_begins_with_header
    (contexts : list value) (text : pystr) :
  render_contexts contexts = Ok text ->
  (text = [] <-> contexts = [])
  /\ (forall c others,
        contexts = c :: others -> exists tail, text = header_line c ++ tail).
Proof.
  intros H; apply render_contexts_ok_inv in H as [_ ->].
  destruct contexts as [|c cs].
  - split; [split; reflexivity | discriminate].
  - destruct (rendered_text_cons c cs) as [rest [_ Ht]].
    split.
    + split; [|discriminate].
      rewrite Ht; destruct (header_line_start c) as [t ->]; discriminate.
    + intros c' others [= <- <-]; exists (rstrip rest); exact Ht.
Qed.

Lemma render_contexts_begins_with_header_witness :
  exists tail,
    lit "=== a.log @ unknown time ===" ++ [LF]
      ++ lit "Sam: hi" ++ [LF]
      ++ lit "Bo: yo " ++ [LF]
      ++ [LF]
      ++ lit "=== unknown file @ t2 ===" ++ [LF]
      ++ lit "    [link] https://y (posted by Unknown)" ++ [LF]
      ++ lit "    [description] last"
    = header_line
        (VDict [(lit "source", VStr (lit "a.log"));
                (lit "messages",
                 VList [VDict [(lit "author", VStr (lit "Sam"));
                               (lit "content", VStr (lit "hi"))];
                        VDict [(lit "author", VStr (lit "Bo"));
                               (lit "content", VStr (lit "yo "))]])])
      ++ tail.
Proof.
  exact (proj2 (@render_contexts_begins_with_header ex_two_contexts _ eq_refl)
           _ _ eq_refl).
Defined.

(** X4: the text of two sequences of contexts put end to end is the text of
    the first, the white space trimming had removed from its end, a blank
    line, and the text of the second: more contexts only add to the end of
    the text. *)
Theorem render_contexts_app
    (first second : list value) (text1 text2 : pystr) :
  first <> [] -> second <> [] ->
  render_contexts first = Ok text1 ->
  render_contexts second = Ok text2 ->
  exists gap,
    forallb is_space gap = true
    /\ render_contexts (first ++ second)
       = Ok (text1 ++ gap ++ [LF; LF] ++ text2).
Proof.
  intros Hf Hs H1 H2.
  apply render_contexts_ok_inv in H1 as [W1 ->].
  apply render_contexts_ok_inv in H2 as [W2 ->].
  destruct first as [|c1 cs1]; [congruence|].
  destruct second as [|c2 cs2]; [congruence|].
  destruct (rendered_text_cons c1 cs1) as [r1 [J1 T1]].
  destruct (rendered_text_cons c2 cs2) as [r2 [J2 T2]].
  destruct (rstrip_split r1) as [gap [Hgap Hsp]].
  exists gap; split; [exact Hsp|].
  rewrite render_contexts_ok by (rewrite forallb_app, W1, W2; reflexivity).
  f_equal; unfold rendered_text at 1.
  rewrite map_app, join_app by discriminate.
  rewrite J1, T1, T2, <- !app_assoc, strip_header_app.
  f_equal.
  assert (Hr : rstrip (join [LF; LF]
                         (map (fun c => join [LF] (block_lines c)) (c2 :: cs2)))
               = header_line c2 ++ rstrip r2).
  { rewrite J2; destruct (header_line_end c2) as [h ->].
    now apply rstrip_after_nonspace. }
  rewrite (app_assoc r1), rstrip_app_nonblank.
  - rewrite Hr, <- app_assoc.
    rewrite Hgap at 1; now rewrite <- !app_assoc.
  - rewrite Hr; destruct (header_line_start c2) as [t ->]; discriminate.
Qed.

Lemma render_contexts_app_witness :
  exists gap,
    forallb is_space gap = true
    /\ render_contexts (ex_two_messages (lit "a ") ++ ex_two_contexts)
       = Ok ((lit "=== unknown file @ unknown time ===" ++ [LF]
                ++ lit "Sam: a " ++ [LF] ++ lit "Bo: b")
               ++ gap ++ [LF; LF]
               ++ (lit "=== a.log @ unknown time ===" ++ [LF]
                     ++ lit "Sam: hi" ++ [LF]
                     ++ lit "Bo: yo " ++ [LF]
                     ++ [LF]
                     ++ lit "=== unknown file @ t2 ===" ++ [LF]
                     ++ lit "    [link] https://y (posted by Unknown)" ++ [LF]
                     ++ lit "    [description] last")).
Proof.
  refine (@render_contexts_app (ex_two_messages (lit "a ")) ex_two_contexts
            _ _ _ _ eq_refl eq_refl); discriminate.
Defined.

(* ===================================================================== *)
(** ** The exceptions of the renderer *)
(* ===================================================================== *)

(** X5: the only exceptions [render_contexts] lets escape are
    [AttributeError] and [TypeError]; and it raises [TypeError] only when the
    [messages] or [links] field of some context holds a value that is not
    false and cannot be iterated (the value [True] or a number). *)
Theorem render_contexts_raises_only (contexts : list value) (e : exn) :
  render_contexts contexts = Raise e ->
  (e = AttributeError \/ e = TypeError)
  /\ (e = TypeError ->
      exists d k,
        In (VDict d) contexts
        /\ (k = lit "messages" \/ k = lit "links")
        /\ truthy (dict_get d k) = true
        /\ match dict_get d k with
           | VBool _ | VInt _ | VFloat _ => True
           | _ => False
           end).
Proof.
  intros H; split; [exact (render_contexts_raises _ H)|].
  intros ->; unfold render_contexts in H.
  destruct (foldM render_context [] contexts) as [lines|e'] eqn:E;
    simpl in H; [discriminate|].
  injection H as ->.
  revert E; generalize (@nil pystr).
  induction contexts as [|c cs IH]; intros acc; simpl; [discriminate|].
  destruct (render_context acc c) as [acc'|e1] eqn:Ec; simpl.
  - intros E; destruct (IH _ E) as [d [k [Hin Hk]]].
    exists d, k; split; [right; exact Hin | exact Hk].
  - intros [= ->].
    destruct c as [| | | | | |d]; try discriminate.
    revert Ec; unfold render_context; simpl py_get; simpl bind; unfold bind.
    assert (Hiter : forall k,
               py_iter (py_or (dict_get d k) (VList [])) = Raise TypeError ->
               truthy (dict_get d k) = true
               /\ match dict_get d k with
                  | VBool _ | VInt _ | VFloat _ => True
                  | _ => False
                  end).
    { intros k; unfold py_or.
      destruct (truthy (dict_get d k)) eqn:T; [|discriminate].
      destruct (dict_get d k); simpl; try discriminate; auto. }
    destruct (py_iter (py_or (dict_get d (lit "messages")) (VList [])))
      as [messages|e1] eqn:E1.
    + match goal with
      | |- context [foldM render_message ?a messages] =>
          destruct (foldM render_message a messages) as [lines1|e2] eqn:E2
      end.
      * destruct (py_iter (py_or (dict_get d (lit "links")) (VList [])))
          as [links|e3] eqn:E3.
        -- destruct (foldM render_link lines1 links) as [lines2|e4] eqn:E4;
             [discriminate|].
           intros [= ->].
           pose proof (@foldM_raises _ _ (fun e => e = AttributeError)
                         render_link render_link_raises _ _ _ E4) as F.
           discriminate F.
        -- intros [= ->].
           exists d, (lit "links"); split; [left; reflexivity|].
           split; [right; reflexivity | exact (Hiter _ E3)].
      * intros [= ->].
        pose proof (@foldM_raises _ _ (fun e => e = AttributeError)
                      render_message render_message_raises _ _ _ E2) as F.
        discriminate F.
    + intros [= ->].
      exists d, (lit "messages"); split; [left; reflexivity|].
      split; [left; reflexivity | exact (Hiter _ E1)].
Qed.

Lemma render_contexts_raises_only_witness :
  exists d k,
    In (VDict d) [VDict [(lit "source", VStr (lit "a.log"))];
                  VDict [(lit "links", VInt 3)]]
    /\ (k = lit "messages" \/ k = lit "links")
    /\ truthy (dict_get d k) = true
    /\ match dict_get d k with
       | VBool _ | VInt _ | VFloat _ => True
       | _ => False
       end.
Proof.
  exact (proj2 (@render_contexts_raises_only
                  [VDict [(lit "source", VStr (lit "a.log"))];
                   VDict [(lit "links", VInt 3)]]
                  TypeError eq_refl) eq_refl).
Defined.

(* ===================================================================== *)
(** ** The fields the renderer does not read *)
(* ===================================================================== *)

(** X6: a field the renderer does not read makes no difference: setting or
    removing, in a context, a key other than [source], [timestamp],
    [messages] and [links], in a message a key other than [author] and
    [content], in a link a key other than [url], [posted_by] and
    [description], leaves the lines rendered for the record as they were. *)
Theorem unread_fields_are_ignored
    (lines : list pystr) (d : dict) (k : pystr) (v : value) :
  (k <> lit "source" -> k <> lit "timestamp" ->
   k <> lit "messages" -> k <> lit "links" ->
   render_context lines (VDict (dict_set d k v))
   = render_context lines (VDict d)
   /\ render_context lines (VDict (dict_del d k))
      = render_context lines (VDict d))
  /\ (k <> lit "author" -> k <> lit "content" ->
      render_message lines (VDict (dict_set d k v))
      = render_message lines (VDict d)
      /\ render_message lines (VDict (dict_del d k))
         = render_message lines (VDict d))
  /\ (k <> lit "url" -> k <> lit "posted_by" -> k <> lit "description" ->
      render_link lines (VDict (dict_set d k v))
      = render_link lines (VDict d)
      /\ render_link lines (VDict (dict_del d k))
         = render_link lines (VDict d)).
Proof.
  split; [|split]; intros; split;
    first [apply render_context_ext
          | apply render_message_ext
          | apply render_link_ext];
    first [apply field_set_other | apply field_del_other];
    now apply str_eqb_neq.
Qed.

Lemma unread_fields_are_ignored_witness :
  render_context []
    (VDict (dict_set [(lit "source", VStr (lit "a.log"))] (lit "channel")
              (VStr (lit "general"))))
  = render_context [] (VDict [(lit "source", VStr (lit "a.log"))]).
Proof.
  refine (proj1 (proj1 (@unread_fields_are_ignored []
            [(lit "source", VStr (lit "a.log"))] (lit "channel")
            (VStr (lit "general"))) _ _ _ _));
    intros H; vm_compute in H; discriminate H.
Defined.

(* ===================================================================== *)
(** ** The run: when it goes through, and how it ends *)
(* ===================================================================== *)

Lemma load_contexts_raises (data : value) (e : exn) :
  load_contexts data = Raise e ->
  e = SystemExit (lit "Input JSON must include a 'contexts' array.").
Proof.
  unfold load_contexts.
  destruct data as [| | | | |l|d]; try (intros [= <-]; reflexivity).
  destruct (dict_get d (lit "contexts"));
    first [discriminate | intros [= <-]; reflexivity].
Qed.

Lemma completion_or_exit_ok (cl : client) (a : args) (context text : pystr) :
  completion_or_exit cl a context = Ok text ->
  exists raw,
    run_completion cl (model a) context (temperature a) = Ok raw
    /\ text = strip raw.
Proof.
  unfold completion_or_exit.
  destruct (run_completion cl (model a) context (temperature a))
    as [raw|e]; simpl.
  - intros [= <-]; now exists raw.
  - destruct e; discriminate.
Qed.

Lemma completion_or_exit_raises
    (cl : client) (a : args) (context : pystr) (e : exn) :
  (forall req e', cl req = Raise e' ->
                  exists kind msg, e' = ProviderError kind msg) ->
  completion_or_exit cl a context = Raise e ->
  (exists msg, e = SystemExit (lit "OpenAI API error: " ++ msg))
  \/ e = IndexError.
Proof.
  intros Hcl; unfold completion_or_exit, run_completion.
  destruct (cl (completion_request (model a) context (temperature a)))
    as [resp|e0] eqn:E; simpl.
  - destruct (choices resp); simpl; [|discriminate].
    intros [= <-]; now right.
  - destruct (Hcl _ _ E) as [kind [msg ->]].
    intros [= <-]; left; now exists msg.
Qed.

(** X7: a run returns normally only if a credential was found, the document
    loaded to a list of contexts that is not empty, the contexts rendered,
    and the completion is not blank; the files written and the texts printed
    are then those of before the run, the file [newsletter_context.json]
    with the stripped completion, and the stripped completion printed. *)
Theorem main_returns_only_after_completion
    (a : args) (w : world) (st st' : effects) (u : unit) :
  main a w st = (Ok u, st') ->
  exists k key contexts context text,
    or_else (api_key a) (env_api_key w) = Some (k :: key)
    /\ load_contexts (read_json w (input a)) = Ok contexts
    /\ contexts <> []
    /\ render_contexts contexts = Ok context
    /\ run_completion (provider w (k :: key)) (model a) context
         (temperature a)
       = Ok text
    /\ strip text <> []
    /\ st' = {| written :=
                  written st
                    ++ [(lit "newsletter_context.json",
                         dumps_link_content (strip text))];
                printed := printed st ++ [strip text] |}.
Proof.
  unfold main.
  destruct (or_else (api_key a) (env_api_key w)) as [[|k key]|] eqn:Hkey;
    try discriminate.
  unfold io_bind, io_lift, io_raise.
  destruct (load_contexts (read_json w (input a))) as [[|c0 cs]|e1] eqn:Hload;
    try discriminate.
  destruct (render_contexts (c0 :: cs)) as [context|e2] eqn:Hrender;
    try discriminate.
  destruct (completion_or_exit (provider w (k :: key)) a context)
    as [[|c s]|e3] eqn:Hrun; try discriminate.
  destruct (completion_or_exit_ok _ _ _ Hrun) as [raw [Hraw Hs]].
  unfold write_text, print.
  destruct (write_error w _ _); [discriminate|].
  cbn [written printed].
  destruct (print_error w (c :: s)); [discriminate|].
  intros [= _ <-].
  exists k, key, (c0 :: cs), context, raw.
  repeat (split; [first [reflexivity | assumption | discriminate]|]).
  split; [rewrite <- Hs; discriminate | now rewrite <- Hs].
Qed.

Lemma main_returns_only_after_completion_witness :
  exists k key contexts context text,
    or_else (api_key ex_args) (env_api_key (ex_world_answer (lit "<ul></ul>")))
    = Some (k :: key)
    /\ load_contexts (read_json (ex_world_answer (lit "<ul></ul>"))
                        (input ex_args))
       = Ok contexts
    /\ contexts <> []
    /\ render_contexts contexts = Ok context
    /\ run_completion (provider (ex_world_answer (lit "<ul></ul>")) (k :: key))
         (model ex_args) context (temperature ex_args)
       = Ok text
    /\ strip text <> []
    /\ snd (main ex_args (ex_world_answer (lit "<ul></ul>")) no_effects)
       = {| written :=
              written no_effects
                ++ [(lit "newsletter_context.json",
                     dumps_link_content (strip text))];
            printed := printed no_effects ++ [strip text] |}.
Proof.
  exact (@main_returns_only_after_completion ex_args
           (ex_world_answer (lit "<ul></ul>")) no_effects _ tt eq_refl).
Defined.

(** X8: a run consults the provider at one point only, the request made of
    the model and the temperature of the command line and of the rendered
    text, under the credential found: two surroundings that agree on the
    environment variable, on the document, on the answer to that request and
    on how they take a write and a print give the same run, whatever their
    providers answer to other requests. In particular the provider makes no
    difference to a run that has no credential, no valid document or no
    context. *)
Theorem main_sends_one_request
    (a : args) (w1 w2 : world) (st : effects) :
  env_api_key w1 = env_api_key w2 ->
  read_json w1 (input a) = read_json w2 (input a) ->
  (forall path text, write_error w1 path text = write_error w2 path text) ->
  (forall text, print_error w1 text = print_error w2 text) ->
  (forall k key contexts context,
      or_else (api_key a) (env_api_key w1) = Some (k :: key) ->
      load_contexts (read_json w1 (input a)) = Ok contexts ->
      contexts <> [] ->
      render_contexts contexts = Ok context ->
      provider w1 (k :: key)
        (completion_request (model a) context (temperature a))
      = provider w2 (k :: key)
          (completion_request (model a) context (temperature a))) ->
  main a w1 st = main a w2 st.
Proof.
  intros Henv Hdoc Hw Hpr Hp; unfold main.
  rewrite <- Henv, <- Hdoc.
  destruct (or_else (api_key a) (env_api_key w1)) as [[|k key]|] eqn:Hkey;
    try reflexivity.
  unfold io_bind, io_lift.
  destruct (load_contexts (read_json w1 (input a))) as [[|c0 cs]|e1] eqn:Hload;
    try reflexivity.
  destruct (render_contexts (c0 :: cs)) as [context|e2] eqn:Hrender;
    try reflexivity.
  assert (Heq : completion_or_exit (provider w2 (k :: key)) a context
                = completion_or_exit (provider w1 (k :: key)) a context).
  { unfold completion_or_exit, run_completion.
    rewrite (Hp k key (c0 :: cs) context eq_refl eq_refl
               ltac:(discriminate) Hrender).
    reflexivity. }
  rewrite Heq.
  destruct (completion_or_exit (provider w1 (k :: key)) a context)
    as [[|c s]|e3]; try reflexivity.
  unfold write_text, print.
  rewrite <- Hw.
  destruct (write_error w1 _ _); [reflexivity|].
  cbn [written printed]; rewrite <- Hpr; reflexivity.
Qed.

Lemma main_sends_one_request_witness :
  main ex_args ex_world_any_model no_effects
  = main ex_args ex_world_one_model no_effects
  /\ provider ex_world_any_model (lit "sk-1")
       (completion_request (lit "gpt-4") [] default_temperature)
     <> provider ex_world_one_model (lit "sk-1")
          (completion_request (lit "gpt-4") [] default_temperature).
Proof.
  split; [|discriminate].
  refine (@main_sends_one_request ex_args ex_world_any_model
            ex_world_one_model no_effects eq_refl eq_refl _ _ _);
    reflexivity.
Defined.

(** X9: in a run whose input file is read and parsed, with a provider whose
    failures are all of the four caught kinds, the exception of a run that
    does not return is one of these: [SystemExit] with the message of the
    missing key, of an input error, of the provider's failure
    ([OpenAI API error: ...]) or of the empty newsletter; [AttributeError]
    or [TypeError] from a record the renderer cannot read; [IndexError] from
    a response without choice; the exception the surroundings answer the
    write of [newsletter_context.json] or the print with. *)
Theorem main_ends_in_known_ways
    (a : args) (w : world) (st st' : effects) (e : exn) :
  (forall key req e',
      provider w key req = Raise e' ->
      exists kind msg, e' = ProviderError kind msg) ->
  main a w st = (Raise e, st') ->
  main_failure w e.
Proof.
  intros Hp; unfold main.
  destruct (or_else (api_key a) (env_api_key w)) as [[|k key]|];
    try (unfold io_raise; intros [= <- _]; apply ends_missing_key).
  unfold io_bind, io_lift, io_raise.
  destruct (load_contexts (read_json w (input a))) as [[|c0 cs]|e1] eqn:Hload.
  - intros [= <- _]; apply ends_input_error; right; reflexivity.
  - destruct (render_contexts (c0 :: cs)) as [context|e2] eqn:Hrender.
    + destruct (completion_or_exit (provider w (k :: key)) a context)
        as [[|c s]|e3] eqn:Hrun.
      * intros [= <- _]; apply ends_empty_newsletter.
      * unfold write_text, print.
        destruct (write_error w _ _) as [e4|] eqn:Hw.
        -- intros [= <- _]; exact (ends_write_error _ _ Hw).
        -- cbn [written printed].
           destruct (print_error w (c :: s)) as [e5|] eqn:Hpr;
             [|discriminate].
           intros [= <- _]; exact (ends_print_error _ _ Hpr).
      * intros [= <- _].
        destruct (@completion_or_exit_raises _ _ _ _ (Hp (k :: key)) Hrun)
          as [[msg ->] | ->];
          [apply ends_provider_error | apply ends_no_choice].
    + intros [= <- _]; apply ends_bad_record.
      exact (render_contexts_raises _ Hrender).
  - intros [= <- _].
    rewrite (load_contexts_raises _ Hload).
    apply ends_input_error; left; reflexivity.
Qed.

Lemma main_ends_in_known_ways_witness :
  main_failure ex_world_timeout
    (SystemExit (lit "OpenAI API error: Request timed out."))
  /\ main_failure (ex_world_utf8 (lit "<p>" ++ [0xd83d%N] ++ lit "</p>"))
       (UnicodeEncodeError (lit "surrogates not allowed")).
Proof.
  split.
  - refine (@main_ends_in_known_ways ex_args ex_world_timeout no_effects
              no_effects _ _ eq_refl).
    intros key req e' H; injection H as <-.
    exists APITimeoutError, (lit "Request timed out."); reflexivity.
  - refine (@main_ends_in_known_ways ex_args
              (ex_world_utf8 (lit "<p>" ++ [0xd83d%N] ++ lit "</p>"))
              no_effects _ _ _ eq_refl).
    intros key req e' H; discriminate H.
Defined.

(** X10: in a run that reaches the provider, a response without any choice
    ends the run on [IndexError], which the [try] statement does not catch;
    nothing is written or printed. *)
Theorem main_response_without_choice
    (a : args) (w : world) (st : effects) (k : N) (key : pystr)
    (contexts : list value) (context : pystr) (resp : response) :
  or_else (api_key a) (env_api_key w) = Some (k :: key) ->
  load_contexts (read_json w (input a)) = Ok contexts ->
  contexts <> [] ->
  render_contexts contexts = Ok context ->
  provider w (k :: key) (completion_request (model a) context (temperature a))
  = Ok resp ->
  choices resp = [] ->
  main a w st = (Raise IndexError, st).
Proof.
  intros Hkey Hload Hne Hrender Hp Hch.
  destruct contexts as [|c0 cs]; [congruence|].
  unfold main; rewrite Hkey.
  unfold io_bind, io_lift; rewrite Hload, Hrender.
  unfold completion_or_exit, run_completion; rewrite Hp; simpl; rewrite Hch.
  reflexivity.
Qed.

Lemma main_response_without_choice_witness :
  main ex_args ex_world_no_choice no_effects = (Raise IndexError, no_effects).
Proof.
  refine (@main_response_without_choice ex_args ex_world_no_choice no_effects
            _ _ _ _ _ eq_refl eq_refl _ eq_refl eq_refl eq_refl).
  discriminate.
Defined.

(* ===================================================================== *)
(** ** The text of the output file *)
(* ===================================================================== *)

Lemma hex_digit_printable (d : N) :
  (d < 16)%N -> printable_ascii (hex_digit d) = true.
Proof.
  intros H; unfold printable_ascii, hex_digit.
  destruct (d <? 10)%N eqn:E.
  - apply N.ltb_lt in E; apply andb_true_iff; split; apply N.leb_le; lia.
  - apply N.ltb_ge in E; apply andb_true_iff; split; apply N.leb_le; lia.
Qed.

Lemma hex_fixed_printable (width : nat) (n : N) :
  forallb printable_ascii (hex_fixed width n) = true.
Proof.
  revert n; induction width as [|w IH]; intros n; simpl; [reflexivity|].
  rewrite forallb_app, IH; simpl.
  rewrite hex_digit_printable; [reflexivity|].
  apply N.mod_lt; discriminate.
Qed.

Lemma json_escape_char_printable (c : N) :
  forallb printable_ascii (json_escape_char c) = true.
Proof.
  unfold json_escape_char.
  destruct (c =? DQUOTE)%N; [reflexivity|].
  destruct (c =? BACKSLASH)%N; [reflexivity|].
  destruct (c =? 0x08)%N; [reflexivity|].
  destruct (c =? 0x0c)%N; [reflexivity|].
  destruct (c =? 0x0a)%N; [reflexivity|].
  destruct (c =? 0x0d)%N; [reflexivity|].
  destruct (c =? 0x09)%N; [reflexivity|].
  destruct ((0x20 <=? c) && (c <=? 0x7e))%N eqn:E.
  - cbn [forallb]; unfold printable_ascii; now rewrite E.
  - destruct (c <? 0x10000)%N; cbv zeta;
      rewrite !forallb_app, !hex_fixed_printable; reflexivity.
Qed.

(** X11: whatever the newsletter, the text written to the output file is
    made of printable ASCII characters only: every other character of the
    newsletter is written as an escape. *)
Theorem dumps_link_content_is_ascii (newsletter : pystr) :
  forallb printable_ascii (dumps_link_content newsletter) = true.
Proof.
  unfold dumps_link_content.
  rewrite !forallb_app.
  assert (forallb printable_ascii (flat_map json_escape_char newsletter)
          = true) as ->.
  { induction newsletter as [|c s IH]; simpl; [reflexivity|].
    now rewrite forallb_app, json_escape_char_printable, IH. }
  reflexivity.
Qed.
